(** * kagglehub: error taxonomy, response post-processing, pipeline paths
      and resolver registration

    A shallow embedding of
      - [kagglehub/exceptions.py]  (module [Exceptions]),
      - [kagglehub/dj.py]          (module [Dj]),
      - [kagglehub/__init__.py]    (module [Init]),
    together with the resolver registry the package initialisation drives
    (module [Registry]).  Module [Samples] holds the predicates the
    statements are written with and the concrete inputs they are run on;
    the properties follow it.

    Python values that flow through the embedded functions are represented
    by [PyVal]; a raised exception is a value of [Exc] returned through the
    [Outcome] error monad, so that "raises" and "returns normally" are both
    ordinary results one can compute with. *)

From stdpp Require Import gmap strings list pretty.
From Stdlib Require Import ZArith QArith Ascii.

Local Open Scope string_scope.
Local Open Scope Z_scope.

(** ** Python values *)

#[local] Set Warnings "-register-all".

(** A [float]: not a number, an infinity, or a finite value, which is
    given exactly, as a rational.  No arithmetic is done on floats here,
    only comparisons and truncation to an integer, and these are exact. *)
Inductive PyFloat : Type :=
| FNaN
| FInf (negative : bool)
| FFinite (q : Q).

(** The values a parsed JSON body can hold; [bool] is kept apart from
    [int] although Python lets it act as one. *)
Inductive PyVal : Type :=
| VNone
| VBool (b : bool)
| VInt (z : Z)
| VFloat (f : PyFloat)
| VStr (s : string)
| VList (l : list PyVal)
| VDict (d : list (string * PyVal)).

(** Numbers: integers of any size and floats. *)
Inductive Num : Type :=
| NInt (z : Z)
| NFloat (f : PyFloat).

Coercion NInt : Z >-> Num.

(** The number a value stands for in arithmetic and comparisons ([bool]
    is a subclass of [int]); [None] when it is not a number. *)
Definition as_number (v : PyVal) : option Num :=
  match v with
  | VInt z => Some (NInt z)
  | VBool b => Some (NInt (if b then 1 else 0))
  | VFloat f => Some (NFloat f)
  | _ => None
  end.

(** [f <= g] and [f < g] on floats: every comparison with a NaN is
    false. *)
Definition float_le (f g : PyFloat) : bool :=
  match f, g with
  | FNaN, _ | _, FNaN => false
  | FInf true, _ => true
  | _, FInf false => true
  | FInf false, _ => false
  | _, FInf true => false
  | FFinite p, FFinite q => Qle_bool p q
  end.

Definition float_lt (f g : PyFloat) : bool :=
  match f, g with
  | FNaN, _ | _, FNaN => false
  | _, _ => negb (float_le g f)
  end.

(** Where a number lies among the floats' values; Python compares an
    [int] and a [float] by their exact values. *)
Definition exact_value (n : Num) : PyFloat :=
  match n with
  | NInt z => FFinite (inject_Z z)
  | NFloat f => f
  end.

Definition num_le (a b : Num) : bool :=
  match a, b with
  | NInt x, NInt y => x <=? y
  | _, _ => float_le (exact_value a) (exact_value b)
  end.

Definition num_lt (a b : Num) : bool :=
  match a, b with
  | NInt x, NInt y => x <? y
  | _, _ => float_lt (exact_value a) (exact_value b)
  end.

(** [v != ''], the comparison with the empty [str]: a value of another
    type is never equal to it. *)
Definition ne_empty_str (v : PyVal) : bool :=
  match v with
  | VStr EmptyString => false
  | _ => true
  end.

(** ** HTTP responses and the exceptions of the web layer *)

(** The classes of [aiohttp.web_exceptions] the handlers tell apart.
    [HTTPErrorOther] is any other subclass of [HTTPError]; [NotHTTPError]
    is anything [response.raise_for_status()] may raise that is not an
    [HTTPError]. *)
Inductive WebClass : Type :=
| HTTPUnauthorized
| HTTPForbidden
| HTTPNotFound
| HTTPErrorOther
| NotHTTPError.

Global Instance WebClass_eq_dec : EqDecision WebClass.
Proof. solve_decision. Defined.

Definition is_HTTPError (c : WebClass) : bool :=
  match c with
  | NotHTTPError => false
  | _ => true
  end.

Record WebException : Type := mkWebException {
  web_class : WebClass;
  web_str : string            (* str(e) *)
}.

(** A response object, duck-typed as the handlers use it: an attribute the
    object does not have is [None], and [raise_for_status] is the exception
    the call [response.raise_for_status()] raises, if it raises. *)
Record Response : Type := mkResponse {
  status_code : option Z;
  status : option Z;
  url : option string;
  raise_for_status : option WebException
}.

(** [kagglehub.handle.ResourceHandle], of which the handlers only call
    [to_url()]. *)
Record ResourceHandle : Type := mkResourceHandle {
  to_url : string
}.

Module Exceptions.

(** ** The exception classes *)

(** Exceptions that can be in flight: the eleven classes the module
    defines, with the arguments of their [__init__], the built-in errors
    the interpreter and the library raise on the embedded paths
    ([OSError] stands for its subclasses, named by the argument), and an
    exception of the web layer that no handler caught. *)
Inductive Exc : Type :=
| CredentialError (message : string)
| KaggleEnvironmentError (message : string)
| ColabEnvironmentError (message : string)
| BackendError (message : PyVal) (error_code : option Z)
| NotFoundError (message : string)
| DataCorruptionError (message : string)
| KaggleApiHTTP1Error (message : string) (response : option Response)
| ColabHTTP1Error (message : string) (response : option Response)
| KaggleApiHTTPError (message : string) (response : option Response)
| ColabHTTPError (message : string) (response : option Response)
| UnauthenticatedError (message : string)
| TypeError
| ValueError
| OverflowError
| OSError (subclass : string)
| AttributeError (name : string)
| UnboundLocalError (name : string)
| Uncaught (e : WebException).

Definition class_name (e : Exc) : string :=
  match e with
  | CredentialError _ => "CredentialError"
  | KaggleEnvironmentError _ => "KaggleEnvironmentError"
  | ColabEnvironmentError _ => "ColabEnvironmentError"
  | BackendError _ _ => "BackendError"
  | NotFoundError _ => "NotFoundError"
  | DataCorruptionError _ => "DataCorruptionError"
  | KaggleApiHTTP1Error _ _ => "KaggleApiHTTP1Error"
  | ColabHTTP1Error _ _ => "ColabHTTP1Error"
  | KaggleApiHTTPError _ _ => "KaggleApiHTTPError"
  | ColabHTTPError _ _ => "ColabHTTPError"
  | UnauthenticatedError _ => "UnauthenticatedError"
  | TypeError => "TypeError"
  | ValueError => "ValueError"
  | OverflowError => "OverflowError"
  | OSError _ => "OSError"
  | AttributeError _ => "AttributeError"
  | UnboundLocalError _ => "UnboundLocalError"
  | Uncaught _ => "HTTPException"
  end.

(** The [class] statements of the module, in source order. *)
Definition module_classes : list string :=
  [ "CredentialError"; "KaggleEnvironmentError"; "ColabEnvironmentError";
    "BackendError"; "NotFoundError"; "DataCorruptionError";
    "KaggleApiHTTP1Error"; "ColabHTTP1Error"; "KaggleApiHTTPError";
    "ColabHTTPError"; "UnauthenticatedError" ].

(** The six kinds of the specification's error taxonomy. *)
Definition spec_taxonomy : list string :=
  [ "ValidationError"; "UnsupportedEnvironmentError"; "UnauthenticatedError";
    "NotFoundError"; "BackendError"; "DataCorruptionError" ].

(** ** Outcomes *)

(** The result of running a piece of Python: a value, [raise e], or
    [raise e from cause]. *)
Inductive Outcome (A : Type) : Type :=
| Ok (a : A)
| Raise (e : Exc)
| RaiseFrom (e : Exc) (cause : WebException).
Arguments Ok {A} a.
Arguments Raise {A} e.
Arguments RaiseFrom {A} e cause.

(** [Outcome] is an error monad; the handlers below are written in
    stdpp's [x ← m; k] notation. *)
Global Instance Outcome_ret : MRet Outcome := fun A a => Ok a.
Global Instance Outcome_bind : MBind Outcome := fun A B k m =>
  match m with
  | Ok a => k a
  | Raise e => Raise e
  | RaiseFrom e c => RaiseFrom e c
  end.

(** The exception an outcome raises, if any. *)
Definition raised {A : Type} (o : Outcome A) : option Exc :=
  match o with
  | Ok _ => None
  | Raise e => Some e
  | RaiseFrom e _ => Some e
  end.

(** Attribute access: [AttributeError] when the object lacks it. *)
Definition getattr {A : Type} (name : string) (field : option A) : Outcome A :=
  match field with
  | Some a => Ok a
  | None => Raise (AttributeError name)
  end.

(** [a <= b] and [a < b] on Python values: [TypeError] unless both are
    numbers. *)
Definition py_le (a b : PyVal) : Outcome bool :=
  match as_number a, as_number b with
  | Some x, Some y => Ok (num_le x y)
  | _, _ => Raise TypeError
  end.

Definition py_lt (a b : PyVal) : Outcome bool :=
  match as_number a, as_number b with
  | Some x, Some y => Ok (num_lt x y)
  | _, _ => Raise TypeError
  end.

(** ** The handlers *)

Definition nl : string := String (ascii_of_nat 10) EmptyString.

Definition permission_message (code : Z) (resource_url : string) : string :=
  pretty code +:+ " Client Error." +:+
  nl +:+ nl +:+
  "You don't have permission to access resource at URL: " +:+ resource_url +:+
  nl +:+ "Please make sure you are authenticated if you are trying to access a private resource or a resource" +:+
  " requiring consent.".

Definition not_found_message (code : Z) (resource_url : string) : string :=
  pretty code +:+ " Client Error." +:+
  nl +:+ nl +:+
  "Resource not found at URL: " +:+ resource_url +:+
  nl +:+ "Please make sure you specified the correct resource identifiers.".

(** [resource_handle.to_url() if resource_handle else response.url] *)
Definition resource_url_of (response : Response)
    (resource_handle : option ResourceHandle) : Outcome string :=
  match resource_handle with
  | Some h => Ok (to_url h)
  | None => getattr "url" (url response)
  end.

(** [kaggle_api_raise_for_status].  The three [except] clauses are kept
    apart as in the source.  In the [HTTPNotFound] clause the local
    [resource_url] has not been assigned: once [response.status_code] has
    been formatted, reading it raises [UnboundLocalError]. *)
Definition kaggle_api_raise_for_status (response : Response)
    (resource_handle : option ResourceHandle) : Outcome unit :=
  match raise_for_status response with
  | None => Ok tt
  | Some e =>
      match web_class e with
      | HTTPUnauthorized =>
          resource_url ← resource_url_of response resource_handle;
          code ← getattr "status_code" (status_code response);
          RaiseFrom (KaggleApiHTTP1Error (permission_message code resource_url) (Some response)) e
      | HTTPForbidden =>
          resource_url ← resource_url_of response resource_handle;
          code ← getattr "status_code" (status_code response);
          RaiseFrom (KaggleApiHTTP1Error (permission_message code resource_url) (Some response)) e
      | HTTPNotFound =>
          code ← getattr "status_code" (status_code response);
          resource_url ← Raise (UnboundLocalError "resource_url");
          RaiseFrom (KaggleApiHTTP1Error (not_found_message code resource_url) (Some response)) e
      | HTTPErrorOther | NotHTTPError => Raise (Uncaught e)
      end
  end.

(** [colab_raise_for_status]: one clause for every [HTTPError]; the
    message is [str(e)] unless the status is 401 or 403. *)
Definition colab_raise_for_status (response : Response)
    (resource_handle : option ResourceHandle) : Outcome unit :=
  match raise_for_status response with
  | None => Ok tt
  | Some e =>
      if is_HTTPError (web_class e) then
        let message := web_str e in
        resource_url ← resource_url_of response resource_handle;
        st ← getattr "status" (status response);
        if (st =? 401) || (st =? 403) then
          st' ← getattr "status" (status response);
          RaiseFrom (ColabHTTP1Error (permission_message st' resource_url) (Some response)) e
        else
          RaiseFrom (ColabHTTP1Error message (Some response)) e
      else Raise (Uncaught e)
  end.

Section PostResponse.

(** [int(s)] for a [str] [s], the built-in: the integer the text denotes,
    or [None] where [int] raises [ValueError]. *)
Variable int_of_str : string -> option Z.

(** [int(v)]: an integer is itself, a finite float is truncated towards
    zero, text is converted by the built-in. *)
Definition py_int (v : PyVal) : Outcome Z :=
  match v with
  | VInt z => Ok z
  | VBool b => Ok (if b then 1 else 0)
  | VFloat FNaN => Raise ValueError
  | VFloat (FInf _) => Raise OverflowError
  | VFloat (FFinite q) => Ok (Z.quot (Qnum q) (Z.pos (Qden q)))
  | VStr s =>
      match int_of_str s with
      | Some z => Ok z
      | None => Raise ValueError
      end
  | VNone | VList _ | VDict _ => Raise TypeError
  end.

(** [process_post_response] *)
Definition process_post_response (response : gmap string PyVal) : Outcome unit :=
  let code := default (VInt 200) (response !! "code") in
  lower ← py_le (VInt 200) code;
  in_range ← (if lower : bool then py_lt code (VInt 300) else Ok false);
  if negb in_range then
    let error_message :=
      default (VStr "No error message provided") (response !! "message") in
    Raise (BackendError error_message None)
  else
    match response !! "error" with
    | Some err =>
        if ne_empty_str err then
          error_code ←
            match response !! "errorCode" with
            | Some v => z ← py_int v; Ok (Some z)
            | None => Ok None
            end;
          Raise (BackendError err error_code)
        else Ok tt
    | None => Ok tt
    end.

End PostResponse.

End Exceptions.

Module Dj.

Import Exceptions.

(** ** [os.path] on POSIX *)

Definition sep : ascii := "/"%char.

(** [s.startswith(sep)] *)
Definition starts_with_sep (s : string) : bool :=
  match s with
  | String c _ => Ascii.eqb c sep
  | EmptyString => false
  end.

(** [s.endswith(sep)] *)
Fixpoint ends_with_sep (s : string) : bool :=
  match s with
  | EmptyString => false
  | String c EmptyString => Ascii.eqb c sep
  | String _ s' => ends_with_sep s'
  end.

Definition is_empty (s : string) : bool :=
  match s with
  | EmptyString => true
  | String _ _ => false
  end.

(** One turn of the loop of [posixpath.join]: an absolute component
    replaces what was joined so far, otherwise a separator is put in unless
    the path is empty or already ends with one. *)
Definition join_step (path b : string) : string :=
  if starts_with_sep b then b
  else if is_empty path || ends_with_sep path then path +:+ b
  else path +:+ String sep EmptyString +:+ b.

(** [os.path.join(a, *p)] *)
Definition os_path_join (a : string) (p : list string) : string :=
  foldl join_step a p.

(** [s.rstrip(sep)] and [s == sep * len(s)], on the reversed string. *)
Fixpoint lstrip_sep (s : string) : string :=
  match s with
  | EmptyString => EmptyString
  | String c s' => if Ascii.eqb c sep then lstrip_sep s' else s
  end.

Fixpoint all_sep (s : string) : bool :=
  match s with
  | EmptyString => true
  | String c s' => Ascii.eqb c sep && all_sep s'
  end.

(** The reversed [p[:p.rfind(sep) + 1]]. *)
Fixpoint rev_head (r : string) : string :=
  match r with
  | EmptyString => EmptyString
  | String c r' => if Ascii.eqb c sep then r else rev_head r'
  end.

(** [os.path.dirname(p)] *)
Definition os_path_dirname (p : string) : string :=
  let rhead := rev_head (String.rev p) in
  if all_sep rhead then String.rev rhead
  else String.rev (lstrip_sep rhead).

(** ** The context variable and the world *)

(** What [scoped_pipeline_dir_ctx] holds besides [None]: a [str] or a
    [pathlib.Path], the latter given by its [os.fspath]. *)
Inductive PathLike : Type :=
| PStr (s : string)
| PPath (s : string).

Definition fspath (v : PathLike) : string :=
  match v with
  | PStr s => s
  | PPath s => s
  end.

(** Truth value: of the values above only the empty [str] is false (a
    [Path] object is always true). *)
Definition truthy (v : PathLike) : bool :=
  match v with
  | PStr s => negb (is_empty s)
  | PPath _ => true
  end.

(** The state the functions of the module read and change: the value of
    the context variable ([None] is its default); the file system as
    [os.makedirs(d, exist_ok=True)] meets it, which for a directory [d]
    gives the subclass of [OSError] the call raises there, [None] when the
    call makes the directory or finds it in place; and the directories
    such calls have made or found, most recent last (what a failing call
    leaves behind of the parent directories is not recorded). *)
Record World : Type := mkWorld {
  scoped_pipeline_dir_ctx : option PathLike;
  makedirs_error : string -> option string;
  made_dirs : list string
}.

Definition ctx_set (v : option PathLike) (w : World) : World :=
  {| scoped_pipeline_dir_ctx := v;
     makedirs_error := makedirs_error w;
     made_dirs := made_dirs w |}.

(** [os.makedirs(d, exist_ok=True)]: the error the file system answers
    with, if any; otherwise the directory is there afterwards. *)
Definition os_makedirs (d : string) (w : World) : option string * World :=
  match makedirs_error w d with
  | Some err => (Some err, w)
  | None =>
      (None,
       {| scoped_pipeline_dir_ctx := scoped_pipeline_dir_ctx w;
          makedirs_error := makedirs_error w;
          made_dirs := made_dirs w ++ [d] |})
  end.

Definition default_pipeline_dir : string := "/kaggle/working".

(** [get_asset_path]: the assets directory is made before the path is
    returned, so an [OSError] of [os.makedirs] is the outcome of the
    call. *)
Definition get_asset_path (path : string) (w : World) : Outcome string * World :=
  let pipeline_dir :=
    match scoped_pipeline_dir_ctx w with
    | Some v => if truthy v then fspath v else default_pipeline_dir
    | None => default_pipeline_dir
    end in
  let assets_dir := os_path_join pipeline_dir ["assets"] in
  match os_makedirs assets_dir w with
  | (Some err, w) => (Raise (OSError err), w)
  | (None, w) => (Ok (os_path_join assets_dir [path]), w)
  end.

(** ** [pipeline_scoped] *)

Section Scoped.

(** [str(pathlib.Path(d).parent)] *)
Variable pathlib_parent : string -> string.

(** A function as the decorator sees it: the [__file__] of its module
    (outer [None]: the module has no such attribute, inner [None]: the
    attribute is [None]) and what calling it does. *)
Record Callable (A R : Type) : Type := mkCallable {
  module_file : option (option string);
  call : A -> World -> Outcome R * World
}.
Arguments module_file {A R} _.
Arguments call {A R} _ _ _.

Definition pipeline_dir_of {A R : Type} (func : Callable A R) : Outcome PathLike :=
  match module_file func with
  | Some (Some file) => Ok (PPath (pathlib_parent (os_path_dirname file)))
  | Some None => Raise TypeError
  | None => Ok (PStr "/kaggle/working")
  end.

(** [pipeline_scoped(func)]: the wrapper [inner].  The [finally] clause
    runs whether [func] returned or raised; the outcome of [func] is then
    the outcome of the wrapper. *)
Definition pipeline_scoped {A R : Type} (func : Callable A R)
    (args : A) (w : World) : Outcome R * World :=
  match pipeline_dir_of func with
  | Ok pipeline_dir =>
      let original_ctx := scoped_pipeline_dir_ctx w in
      let w := ctx_set (Some pipeline_dir) w in
      let '(return_value, w) := call func args w in
      let w := ctx_set original_ctx w in
      (return_value, w)
  | Raise e => (Raise e, w)
  | RaiseFrom e c => (RaiseFrom e c, w)
  end.

End Scoped.

Arguments module_file {A R} _.
Arguments call {A R} _ _ _.
Arguments mkCallable {A R} _ _.

End Dj.

Module Registry.

(** Modelled from the spec: the error kinds of the specification's
    taxonomy, which the resolvers and the registry raise
    ([kagglehub/registry.py] and the resolver modules are not among the
    sources). *)
Inductive Error : Type :=
| ValidationError
| UnsupportedEnvironmentError
| UnauthenticatedError
| NotFoundError
| BackendError (message : string) (error_code : option Z)
| DataCorruptionError.

(** The failures the specification calls transient or expected. *)
Definition is_expected_failure (e : Error) : bool :=
  match e with
  | NotFoundError | BackendError _ _ => true
  | _ => false
  end.

(** Modelled from the spec: [add_implementation] of a resolver registry
    ([kagglehub/registry.py] is not among the sources).  It appends the
    resolver to the chain. *)
Definition add_implementation {R : Type} (impl : R) (chain : list R) : list R :=
  chain ++ [impl].

Section Resolve.

(** Handles, the state of the environment (mounts, cache, network) and
    local paths. *)
Variables Handle World Path : Type.

Inductive Result : Type :=
| Resolved (p : Path)
| Failed (e : Error).

(** Modelled from the spec: a resolver, the capability set
    {probe, resolve}.  The probe is free of side effects; [resolve] may
    change the environment and either yields a local path or fails. *)
Record Resolver : Type := mkResolver {
  is_supported : Handle -> World -> bool;
  resolve : Handle -> World -> Result * World
}.

(** The calls the registry makes, by position of the resolver in the
    chain. *)
Inductive Call : Type :=
| Probe (i : nat)
| Attempt (i : nat).

Definition call_index (c : Call) : nat :=
  match c with
  | Probe i => i
  | Attempt i => i
  end.

(** Modelled from the spec: [resolve] of a resolver registry
    ([kagglehub/registry.py] is not among the sources).  The chain is
    walked in registration order; a resolver that reports itself
    unsupported is skipped; the first supported one resolves and its
    outcome, path or failure, is the outcome of the call; when none is
    supported the call fails with [UnsupportedEnvironmentError].  The
    calls made are returned along with the outcome. *)
Fixpoint resolve_from (i : nat) (chain : list Resolver) (h : Handle) (w : World)
    : list Call * Result * World :=
  match chain with
  | [] => ([], Failed UnsupportedEnvironmentError, w)
  | r :: rest =>
      if is_supported r h w then
        let '(res, w') := resolve r h w in
        ([Probe i; Attempt i], res, w')
      else
        let '(calls, res, w') := resolve_from (S i) rest h w in
        (Probe i :: calls, res, w')
  end.

Definition registry_resolve (chain : list Resolver) (h : Handle) (w : World)
    : list Call * Result * World :=
  resolve_from 0 chain h w.

End Resolve.

Arguments Resolved {Path} p.
Arguments Failed {Path} e.
Arguments mkResolver {Handle World Path} _ _.
Arguments is_supported {Handle World Path} _ _ _.
Arguments resolve {Handle World Path} _ _ _.
Arguments resolve_from {Handle World Path} i chain h w.
Arguments registry_resolve {Handle World Path} chain h w.

End Registry.

Module Init.

(** The resolver classes instantiated by the package initialisation and
    the module each comes from. *)
Inductive ResolverImpl : Type :=
| ModelHttpResolver
| ModelKaggleCacheResolver
| ModelColabCacheResolver
| DatasetHttpResolver
| DatasetKaggleCacheResolver
| DatasetColabCacheResolver
| CompetitionHttpResolver
| CompetitionKaggleCacheResolver.

Inductive ResolverModule : Type :=
| http_resolver
| kaggle_cache_resolver
| colab_cache_resolver.

Global Instance ResolverImpl_eq_dec : EqDecision ResolverImpl.
Proof. solve_decision. Defined.

Global Instance ResolverModule_eq_dec : EqDecision ResolverModule.
Proof. solve_decision. Defined.

Definition module_of (r : ResolverImpl) : ResolverModule :=
  match r with
  | ModelHttpResolver | DatasetHttpResolver | CompetitionHttpResolver =>
      http_resolver
  | ModelKaggleCacheResolver | DatasetKaggleCacheResolver
  | CompetitionKaggleCacheResolver => kaggle_cache_resolver
  | ModelColabCacheResolver | DatasetColabCacheResolver => colab_cache_resolver
  end.

(** The resolvers that read a cache mounted by the environment. *)
Definition is_env_cache (r : ResolverImpl) : bool :=
  match module_of r with
  | http_resolver => false
  | kaggle_cache_resolver | colab_cache_resolver => true
  end.

(** The three registries of [kagglehub.registry], one per resource kind:
    models, datasets and competitions. *)
Inductive RegistryName : Type :=
| model_resolver
| dataset_resolver
| competition_resolver.

Global Instance RegistryName_eq_dec : EqDecision RegistryName.
Proof. solve_decision. Defined.

(** The [add_implementation] statements of [kagglehub/__init__.py]
    (lines 13 to 22) in source order: the registry the method is called on
    and the instance it is given. *)
Definition registrations : list (RegistryName * ResolverImpl) :=
  [ (model_resolver, ModelHttpResolver);
    (model_resolver, ModelKaggleCacheResolver);
    (model_resolver, ModelColabCacheResolver);
    (dataset_resolver, DatasetHttpResolver);
    (dataset_resolver, DatasetKaggleCacheResolver);
    (dataset_resolver, DatasetColabCacheResolver);
    (competition_resolver, CompetitionHttpResolver);
    (competition_resolver, CompetitionKaggleCacheResolver) ].

(** The implementations these statements register on a registry, in the
    order of the statements. *)
Definition registered_on (k : RegistryName) : list ResolverImpl :=
  (filter (fun c => c.1 = k) registrations).*2.

(** The chains of the three registries. *)
Definition Registries : Type := RegistryName -> list ResolverImpl.

Definition empty_registries : Registries := fun _ => [].

(** One call [registry.<k>.add_implementation(impl)]. *)
Definition register (regs : Registries) (c : RegistryName * ResolverImpl)
    : Registries :=
  fun k =>
    if decide (k = c.1)
    then Registry.add_implementation c.2 (regs k)
    else regs k.

(** The chains after the given calls have run, starting from empty
    registries. *)
Definition chains_of (calls : list (RegistryName * ResolverImpl)) : Registries :=
  foldl register empty_registries calls.

End Init.

(** * Predicates of the statements and sample inputs *)

Module Samples.

Import Exceptions.

(** A chain in which the HTTP resolver is the last one registered. *)
Definition http_registered_last (chain : list Init.ResolverImpl) : Prop :=
  exists r, last chain = Some r /\ Init.module_of r = Init.http_resolver.

(** Responses of status 401, 403 and 404 as an HTTP client hands them
    over, [raise_for_status] raising the exception class of the status. *)
Definition sample_url : string := "https://www.kaggle.com/api/v1/models/google/bert/download".

Definition response_401 : Response :=
  {| status_code := Some 401; status := Some 401; url := Some sample_url;
     raise_for_status := Some (mkWebException HTTPUnauthorized "Unauthorized") |}.

Definition response_403 : Response :=
  {| status_code := Some 403; status := Some 403; url := Some sample_url;
     raise_for_status := Some (mkWebException HTTPForbidden "Forbidden") |}.

Definition response_404 : Response :=
  {| status_code := Some 404; status := Some 404; url := Some sample_url;
     raise_for_status := Some (mkWebException HTTPNotFound "Not Found") |}.

(** A 401 response of a client whose responses have [status] and no
    [status_code]. *)
Definition response_status_only : Response :=
  {| status_code := None; status := Some 401; url := Some sample_url;
     raise_for_status := Some (mkWebException HTTPUnauthorized "Unauthorized") |}.

Definition sample_handle : ResourceHandle :=
  {| to_url := "https://www.kaggle.com/models/google/bert" |}.

(** A number in [200, 300), by the two comparisons of the source. *)
Definition num_in_range (n : Num) : bool := num_le 200 n && num_lt n 300.

(** The ["code"] field of a body, 200 when absent, lies in [200, 300). *)
Definition code_ok (response : gmap string PyVal) : bool :=
  match as_number (default (VInt 200) (response !! "code")) with
  | Some n => num_in_range n
  | None => false
  end.

(** The ["code"] field is present, a number, and outside [200, 300). *)
Definition code_out_of_range (response : gmap string PyVal) : Prop :=
  exists v n, response !! "code" = Some v /\ as_number v = Some n /\
              num_in_range n = false.

(** The ["error"] field is present and is a non-empty string. *)
Definition error_is_nonempty_string (response : gmap string PyVal) : Prop :=
  exists s, response !! "error" = Some (VStr s) /\ s <> EmptyString.

(** The ["error"] field is present and differs from the empty string. *)
Definition error_differs_from_empty (response : gmap string PyVal) : Prop :=
  exists v, response !! "error" = Some v /\ v <> VStr EmptyString.

Definition raises_BackendError (o : Outcome unit) : Prop :=
  exists m c, o = Raise (BackendError m c).

(** Bodies of 2xx POST responses. *)
Definition body_error_null : gmap string PyVal :=
  {[ "error" := VNone ]}.

Definition body_code_500 : gmap string PyVal :=
  {[ "code" := VInt 500; "errorCode" := VInt 7 ]}.

Definition body_error_quota : gmap string PyVal :=
  {[ "code" := VInt 200; "error" := VStr "Quota exceeded";
     "errorCode" := VInt 7 ]}.

(** The number 7.9 and a body that carries it as error code. *)
Definition float_7_9 : PyFloat := FFinite (79 # 10).

Definition body_error_code_float : gmap string PyVal :=
  {[ "code" := VFloat (FFinite (2005 # 10)); "error" := VStr "Quota exceeded";
     "errorCode" := VFloat float_7_9 ]}.

(** The pipeline directory in effect: the value of the context variable
    when it is set to a non-empty value, the default otherwise. *)
Definition pipeline_dir_in_effect (ctx : option Dj.PathLike) : string :=
  match ctx with
  | Some (Dj.PStr (String c s)) => String c s
  | Some (Dj.PPath s) => s
  | Some (Dj.PStr EmptyString) | None => "/kaggle/working"
  end.

(** The assets directory under the pipeline directory in effect. *)
Definition assets_dir_in_effect (ctx : option Dj.PathLike) : string :=
  Dj.os_path_join (pipeline_dir_in_effect ctx) ["assets"].

(** A path that does not start at the root. *)
Definition is_relative (p : string) : Prop := Dj.starts_with_sep p = false.

(** Worlds with and without a scoped pipeline directory, on a file
    system where every directory can be made. *)
Definition world_unscoped : Dj.World :=
  {| Dj.scoped_pipeline_dir_ctx := None;
     Dj.makedirs_error := fun _ => None;
     Dj.made_dirs := [] |}.

Definition world_scoped : Dj.World :=
  {| Dj.scoped_pipeline_dir_ctx := Some (Dj.PPath "/kaggle/tmp/code/alice_iris");
     Dj.makedirs_error := fun _ => None;
     Dj.made_dirs := [] |}.

(** A world off Kaggle, where nothing can be made under [/kaggle], and a
    world whose scoped pipeline directory is a regular file. *)
Definition world_off_kaggle : Dj.World :=
  {| Dj.scoped_pipeline_dir_ctx := None;
     Dj.makedirs_error := fun d =>
       if String.prefix "/kaggle" d then Some "PermissionError" else None;
     Dj.made_dirs := [] |}.

Definition world_under_file : Dj.World :=
  {| Dj.scoped_pipeline_dir_ctx := Some (Dj.PStr "/etc/passwd");
     Dj.makedirs_error := fun d =>
       if String.prefix "/etc/passwd/" d then Some "NotADirectoryError" else None;
     Dj.made_dirs := [] |}.

(** A function of an imported pipeline module that changes the context
    variable itself before it returns. *)
Definition sample_func : Dj.Callable unit Z :=
  Dj.mkCallable (Some (Some "/kaggle/tmp/code/alice_iris/module/__init__.py"))
    (fun _ w => (Ok 42, Dj.ctx_set (Some (Dj.PStr "/elsewhere")) w)).

(** A function of the same module that raises. *)
Definition sample_func_raising : Dj.Callable unit Z :=
  Dj.mkCallable (Some (Some "/kaggle/tmp/code/alice_iris/module/__init__.py"))
    (fun _ w => (Raise ValueError, Dj.ctx_set (Some (Dj.PStr "/elsewhere")) w)).

(** An environment cache resolver that is supported and fails with
    [NotFoundError], and an HTTP resolver that downloads; the world counts
    the network calls made. *)
Definition env_cache_not_found : Registry.Resolver string nat string :=
  Registry.mkResolver (fun _ _ => true)
    (fun _ calls => (Registry.Failed Registry.NotFoundError, calls)).

Definition env_cache_unsupported : Registry.Resolver string nat string :=
  Registry.mkResolver (fun _ _ => false)
    (fun _ calls => (Registry.Failed Registry.NotFoundError, calls)).

Definition http_downloads : Registry.Resolver string nat string :=
  Registry.mkResolver (fun _ _ => true)
    (fun h calls => (Registry.Resolved ("/root/.cache/kagglehub/" +:+ h), S calls)).

End Samples.

(** * The rest of the package: login, notebook output files, imports *)

Module Auth.

(** What a call can fail with: end of input at a prompt, or whatever
    [set_kaggle_credentials] raised. *)
Inductive Failure : Type :=
| EOFError
| ConfigFailure (e : Exceptions.Exc).

(** The terminal: the lines still to be read and the texts written so
    far, oldest first. *)
Record Console : Type := mkConsole {
  stdin : list string;
  stdout : list string
}.

(** [input(prompt)]: the prompt is written, then a line is read;
    [EOFError] when there is none. *)
Definition input (prompt : string) (c : Console) : (Failure + string) * Console :=
  match stdin c with
  | [] => (inl EOFError, {| stdin := []; stdout := stdout c ++ [prompt] |})
  | line :: rest => (inr line, {| stdin := rest; stdout := stdout c ++ [prompt] |})
  end.

(** [print(text)] *)
Definition print (text : string) (c : Console) : Console :=
  {| stdin := stdin c; stdout := stdout c ++ [text +:+ Exceptions.nl] |}.

Definition username_prompt : string := "Enter your Kaggle username: ".
Definition api_key_prompt : string := "Enter your Kaggle API key: ".
Definition logged_in_message : string := "You are now logged in to Kaggle Hub.".

Section Login.

(** The state of [kagglehub.config] and its [set_kaggle_credentials],
    which is not among the sources: it may change that state and may
    raise. *)
Variable Config : Type.
Variable set_kaggle_credentials :
  string -> string -> Config -> option Exceptions.Exc * Config.

(** [login] *)
Definition login (c : Console) (cfg : Config) : option Failure * Console * Config :=
  match input username_prompt c with
  | (inl e, c) => (Some e, c, cfg)
  | (inr username, c) =>
      match input api_key_prompt c with
      | (inl e, c) => (Some e, c, cfg)
      | (inr api_key, c) =>
          match set_kaggle_credentials username api_key cfg with
          | (Some e, cfg) => (Some (ConfigFailure e), c, cfg)
          | (None, cfg) => (None, print logged_in_message c, cfg)
          end
      end
  end.

End Login.

End Auth.

Module DjFiles.

Import Dj.

(** What the two functions can fail with: a missing key, an operation on
    a value of the wrong type, an [OSError] of [os.makedirs], named by its
    subclass, or an exception of a collaborator (the API client,
    [urlretrieve], [import_module]), named by its text. *)
Inductive Failure : Type :=
| KeyError (key : string)
| TypeError
| OSError (subclass : string)
| External (what : string).

(** The value bound to a key of a [dict]; the keys of a [dict] are taken
    to be distinct. *)
Fixpoint assoc (key : string) (d : list (string * PyVal)) : option PyVal :=
  match d with
  | [] => None
  | (k, v) :: d' => if String.eqb k key then Some v else assoc key d'
  end.

(** [v[key]] for a [str] key: only a [dict] can be subscripted by it. *)
Definition getitem (v : PyVal) (key : string) : Failure + PyVal :=
  match v with
  | VDict d =>
      match assoc key d with
      | Some x => inr x
      | None => inl (KeyError key)
      end
  | _ => inl TypeError
  end.

(** The values [for f in v] runs through: the items of a [list], the keys
    of a [dict], the characters of a [str]; other values are not
    iterable. *)
Definition iterate (v : PyVal) : Failure + list PyVal :=
  match v with
  | VList l => inr l
  | VDict d => inr (map (fun kv => VStr kv.1) d)
  | VStr s => inr (map (fun c => VStr (String c EmptyString)) (String.list_ascii_of_string s))
  | _ => inl TypeError
  end.

(** The state the functions act on: the world of [Dj], the paths asked of
    the API client, the [(url, filename)] pairs [urlretrieve] fetched, the
    texts printed, [sys.path] and the names of the modules imported. *)
Record Session : Type := mkSession {
  world : World;
  requests : list string;
  retrieved : list (PyVal * string);
  stdout : list string;
  sys_path : list string;
  imported : list string
}.

Definition log_request (path : string) (s : Session) : Session :=
  {| world := world s; requests := requests s ++ [path];
     retrieved := retrieved s; stdout := stdout s;
     sys_path := sys_path s; imported := imported s |}.

Definition with_world (w : World) (s : Session) : Session :=
  {| world := w; requests := requests s;
     retrieved := retrieved s; stdout := stdout s;
     sys_path := sys_path s; imported := imported s |}.

(** [os.makedirs(d, exist_ok=True)] in a session. *)
Definition makedirs (d : string) (s : Session) : option Failure * Session :=
  match os_makedirs d (world s) with
  | (Some err, w) => (Some (OSError err), with_world w s)
  | (None, w) => (None, with_world w s)
  end.

Definition log_retrieved (u : PyVal) (filename : string) (s : Session) : Session :=
  {| world := world s; requests := requests s;
     retrieved := retrieved s ++ [(u, filename)]; stdout := stdout s;
     sys_path := sys_path s; imported := imported s |}.

Definition print (text : string) (s : Session) : Session :=
  {| world := world s; requests := requests s;
     retrieved := retrieved s; stdout := stdout s ++ [text +:+ Exceptions.nl];
     sys_path := sys_path s; imported := imported s |}.

Definition sys_path_append (d : string) (s : Session) : Session :=
  {| world := world s; requests := requests s;
     retrieved := retrieved s; stdout := stdout s;
     sys_path := sys_path s ++ [d]; imported := imported s |}.

Definition log_imported (name : string) (s : Session) : Session :=
  {| world := world s; requests := requests s;
     retrieved := retrieved s; stdout := stdout s;
     sys_path := sys_path s; imported := imported s ++ [name] |}.

(** The request of [download_notebook_output_files]. *)
Definition output_request (user_name kernel_slug : string) : string :=
  "kernels/output?user_name=" +:+ user_name +:+
  "&kernel_slug=" +:+ kernel_slug +:+ "&page_size=500".

Section Download.

(** [KaggleApiV1Client().get(path)], which is not among the sources: the
    parsed body, or a failure. *)
Variable client_get : string -> Failure + PyVal.

(** [urllib.request.urlretrieve(url, filename)]: [None] when the file was
    fetched. *)
Variable urlretrieve : PyVal -> string -> option Failure.

(** The loop of [download_notebook_output_files] over the files still to
    be fetched. *)
Fixpoint download_each (out_dir : string) (files : list PyVal) (s : Session)
    : option Failure * Session :=
  match files with
  | [] => (None, s)
  | f :: rest =>
      match getitem f "fileName" with
      | inl e => (Some e, s)
      | inr (VStr name) =>
          let outfile_path := os_path_join out_dir [name] in
          let outfile_dir := os_path_dirname outfile_path in
          match (if is_empty outfile_dir then (None, s)
                 else makedirs outfile_dir s) with
          | (Some e, s) => (Some e, s)
          | (None, s) =>
              match getitem f "url" with
              | inl e => (Some e, s)
              | inr u =>
                  match urlretrieve u outfile_path with
                  | Some e => (Some e, s)
                  | None =>
                      let s := log_retrieved u outfile_path s in
                      let s := print ("downloaded " +:+ outfile_path) s in
                      download_each out_dir rest s
                  end
              end
          end
      | inr _ => (Some TypeError, s)
      end
  end.

(** [download_notebook_output_files] *)
Definition download_notebook_output_files
    (user_name kernel_slug out_dir : string) (s : Session)
    : option Failure * Session :=
  let path := output_request user_name kernel_slug in
  let s := log_request path s in
  match client_get path with
  | inl e => (Some e, s)
  | inr response =>
      match getitem response "files" with
      | inl e => (Some e, s)
      | inr files =>
          match iterate files with
          | inl e => (Some e, s)
          | inr fs => download_each out_dir fs s
          end
      end
  end.

(** Module objects and [importlib.import_module(name)] under a given
    [sys.path]. *)
Variable PyModule : Type.
Variable import_module : string -> list string -> Failure + PyModule.

Definition pipeline_package (user_name kernel_slug : string) : string :=
  user_name +:+ "_" +:+ kernel_slug.

(** [import_pipeline_module] *)
Definition import_pipeline_module (user_name kernel_slug : string) (s : Session)
    : (Failure + PyModule) * Session :=
  match download_notebook_output_files user_name kernel_slug
          ("/kaggle/tmp/code/" +:+ pipeline_package user_name kernel_slug) s with
  | (Some e, s) => (inl e, s)
  | (None, s) =>
      let s := sys_path_append "/kaggle/tmp/code" s in
      let name := pipeline_package user_name kernel_slug +:+ ".module" in
      match import_module name (sys_path s) with
      | inl e => (inl e, s)
      | inr m => (inr m, log_imported name s)
      end
  end.

End Download.

End DjFiles.

Module Package.

(** What importing the package can fail with. *)
Inductive Failure : Type :=
| ImportError (name : string)
| Other (what : string).

(** The names the top-level statements of [kagglehub/auth.py] bind:
    [import json], [from kagglehub.config import set_kaggle_credentials]
    and [def login]. *)
Definition auth_namespace : list string :=
  ["json"; "set_kaggle_credentials"; "login"].

(** The statements of [kagglehub/__init__.py]. *)
Inductive Stmt : Type :=
| SetVersion (v : string)
| Import (module : string)
| FromImport (module : string) (names : list string)
| AddImplementation (k : Init.RegistryName) (impl : Init.ResolverImpl).

Definition init_statements : list Stmt :=
  [ SetVersion "0.3.4";
    Import "kagglehub.logger";
    FromImport "kagglehub"
      ["colab_cache_resolver"; "http_resolver"; "kaggle_cache_resolver"; "registry"];
    FromImport "kagglehub.auth" ["login"; "whoami"];
    FromImport "kagglehub.competition" ["competition_download"];
    FromImport "kagglehub.datasets" ["dataset_download"; "dataset_upload"];
    FromImport "kagglehub.models" ["model_download"; "model_upload"];
    FromImport "kagglehub.cache" ["added_resources"; "write_added_resources"];
    FromImport "kagglehub.dj"
      ["pipeline_scoped"; "get_asset_path"; "download_notebook_output_files";
       "import_pipeline_module"] ]
  ++ map (fun c => AddImplementation c.1 c.2) Init.registrations.

(** The names [kagglehub/dj.py] binds at top level that the package
    re-exports. *)
Definition dj_namespace : list string :=
  ["scoped_pipeline_dir_ctx"; "pipeline_scoped"; "get_asset_path";
   "download_notebook_output_files"; "import_pipeline_module"].

(** [from module import names] on a module whose source is at hand: the
    first name the module does not bind raises [ImportError]. *)
Fixpoint import_names (namespace names : list string) : option Failure :=
  match names with
  | [] => None
  | n :: rest =>
      if bool_decide (n ∈ namespace) then import_names namespace rest
      else Some (ImportError n)
  end.

Section Run.

(** Importing a module that is not among the sources, or names from it:
    it may succeed or fail. *)
Variable import_absent : string -> list string -> option Failure.

(** The modules [auth.py] and [dj.py] import before they bind their own
    names. *)
Definition import_auth (names : list string) : option Failure :=
  match import_absent "kagglehub.config" ["set_kaggle_credentials"] with
  | Some e => Some e
  | None => import_names auth_namespace names
  end.

Definition import_dj (names : list string) : option Failure :=
  match import_absent "kagglehub.clients" ["KaggleApiV1Client"] with
  | Some e => Some e
  | None => import_names dj_namespace names
  end.

Definition exec (st : Stmt) (done : list (Init.RegistryName * Init.ResolverImpl))
    : option Failure * list (Init.RegistryName * Init.ResolverImpl) :=
  match st with
  | SetVersion _ => (None, done)
  | Import m => (import_absent m [], done)
  | FromImport m names =>
      if String.eqb m "kagglehub.auth" then (import_auth names, done)
      else if String.eqb m "kagglehub.dj" then (import_dj names, done)
      else (import_absent m names, done)
  | AddImplementation k impl => (None, (done ++ [(k, impl)])%list)
  end.

(** The statements run in order; the first failure ends the import.  The
    result is the failure, if any, and the registrations made. *)
Fixpoint run (sts : list Stmt) (done : list (Init.RegistryName * Init.ResolverImpl))
    : option Failure * list (Init.RegistryName * Init.ResolverImpl) :=
  match sts with
  | [] => (None, done)
  | st :: rest =>
      match exec st done with
      | (Some e, done) => (Some e, done)
      | (None, done) => run rest done
      end
  end.

Definition import_package : option Failure * list (Init.RegistryName * Init.ResolverImpl) :=
  run init_statements [].

End Run.

End Package.

Module MoreSamples.

Import Exceptions.

(** A response of status 500, a response without the [url] attribute and
    a failure below the HTTP layer. *)
Definition response_500 : Response :=
  {| status_code := Some 500; status := Some 500; url := Some Samples.sample_url;
     raise_for_status := Some (mkWebException HTTPErrorOther "Internal Server Error") |}.

Definition response_403_no_url : Response :=
  {| status_code := Some 403; status := Some 403; url := None;
     raise_for_status := Some (mkWebException HTTPForbidden "Forbidden") |}.

(** Bodies of POST responses. *)
Definition body_gone : gmap string PyVal :=
  {[ "code" := VInt 404; "message" := VStr "gone";
     "error" := VStr "ignored"; "errorCode" := VStr "abc" ]}.

Definition body_code_string : gmap string PyVal :=
  {[ "code" := VStr "200" ]}.

Definition body_error_code_true : gmap string PyVal :=
  {[ "error" := VStr "Quota exceeded"; "errorCode" := VBool true ]}.

Definition body_error_code_inf : gmap string PyVal :=
  {[ "error" := VStr "Quota exceeded"; "errorCode" := VFloat (FInf false) ]}.

Definition body_error_only : gmap string PyVal :=
  {[ "error" := VStr "Quota exceeded" ]}.

Definition body_error_code_only : gmap string PyVal :=
  {[ "code" := VInt 201; "error" := VStr EmptyString; "errorCode" := VStr "E42" ]}.

End MoreSamples.

Module Scenarios.

Import Exceptions Dj.

(** A function of a pipeline module that returns [get_asset_path(path)]. *)
Definition asset_path_func (file : option (option string))
    : Callable string string :=
  mkCallable file (fun path w => get_asset_path path w).

(** A function of a pipeline module that first calls a function [f]
    wrapped by [pipeline_scoped] and then returns
    [get_asset_path(path)]. *)
Definition call_then_asset_path {A R : Type} (pathlib_parent : string -> string)
    (file : option (option string)) (f : Callable A R) (a : A)
    : Callable string string :=
  mkCallable file
    (fun path w =>
       match pipeline_scoped pathlib_parent f a w with
       | (Ok _, w) => get_asset_path path w
       | (Raise e, w) => (Raise e, w)
       | (RaiseFrom e c, w) => (RaiseFrom e c, w)
       end).

(** The value [pipeline_scoped] is to put in the context variable for a
    function of a module: the parent of the directory of the module's
    file; ["/kaggle/working"] for a module without [__file__]; none when
    [__file__] is [None]. *)
Definition module_pipeline_dir (pathlib_parent : string -> string)
    (file : option (option string)) : option PathLike :=
  match file with
  | Some (Some f) => Some (PPath (pathlib_parent (os_path_dirname f)))
  | Some None => None
  | None => Some (PStr "/kaggle/working")
  end.

Definition bob_module_file : option (option string) :=
  Some (Some "/kaggle/tmp/code/bob_mnist/module/__init__.py").

End Scenarios.

Module FilesSpec.

Import Dj DjFiles.

(** Where the file named [name] is written. *)
Definition target (out_dir name : string) : string :=
  os_path_join out_dir [name].

(** The entry [f] of the listing names the file [spec.1] at URL
    [spec.2]. *)
Definition names_file (f : PyVal) (spec : string * PyVal) : Prop :=
  getitem f "fileName" = inr (VStr spec.1) /\ getitem f "url" = inr spec.2.

(** What fetching the files [specs] in order retrieves, prints and
    creates. *)
Definition fetched (out_dir : string) (specs : list (string * PyVal))
    : list (PyVal * string) :=
  map (fun sp => (sp.2, target out_dir sp.1)) specs.

Definition printed (out_dir : string) (specs : list (string * PyVal))
    : list string :=
  map (fun sp => "downloaded " +:+ target out_dir sp.1 +:+ Exceptions.nl) specs.

Definition dirs_made (out_dir : string) (specs : list (string * PyVal))
    : list string :=
  filter (fun d => is_empty d = false)
         (map (fun sp => os_path_dirname (target out_dir sp.1)) specs).

(** The file system of the session lets [os.makedirs] make every
    directory that fetching the files [specs] asks for. *)
Definition dirs_can_be_made (s : Session) (out_dir : string)
    (specs : list (string * PyVal)) : Prop :=
  Forall (fun d => makedirs_error (world s) d = None) (dirs_made out_dir specs).

(** The session after the files [specs] were fetched. *)
Definition after_fetching (out_dir : string) (specs : list (string * PyVal))
    (s : Session) : Session :=
  {| world := {| scoped_pipeline_dir_ctx := scoped_pipeline_dir_ctx (world s);
                 makedirs_error := makedirs_error (world s);
                 made_dirs := made_dirs (world s) ++ dirs_made out_dir specs |};
     requests := requests s;
     retrieved := retrieved s ++ fetched out_dir specs;
     stdout := stdout s ++ printed out_dir specs;
     sys_path := sys_path s;
     imported := imported s |}.

(** A name with no separator in it. *)
Fixpoint contains_sep (s : string) : bool :=
  match s with
  | EmptyString => false
  | String c s' => Ascii.eqb c sep || contains_sep s'
  end.

(** A listing of two files, a client that serves it for alice's iris
    notebook only, and transfers that succeed, or fail for the second
    file. *)
Definition entry (name : string) (u : string) : PyVal :=
  VDict [("fileName", VStr name); ("url", VStr u); ("size", VInt 1024)].

Definition iris_listing : PyVal :=
  VDict [("files", VList [entry "module/__init__.py" "https://storage/1";
                           entry "weights.bin" "https://storage/2"]);
         ("nextPageToken", VStr EmptyString)].

Definition iris_specs : list (string * PyVal) :=
  [("module/__init__.py", VStr "https://storage/1");
   ("weights.bin", VStr "https://storage/2")].

Definition sample_client_get (path : string) : Failure + PyVal :=
  if String.eqb path (output_request "alice" "iris")
  then inr iris_listing
  else inl (External "404 Client Error").

Definition urlretrieve_ok (u : PyVal) (filename : string) : option Failure := None.

Definition urlretrieve_second_fails (u : PyVal) (filename : string)
    : option Failure :=
  match u with
  | VStr "https://storage/2" => Some (External "URLError")
  | _ => None
  end.

Definition sample_import_module (name : string) (path : list string)
    : Failure + string :=
  if bool_decide ("/kaggle/tmp/code" ∈ path) then inr name
  else inl (External "ModuleNotFoundError").

Definition fresh_session : Session :=
  {| world := {| scoped_pipeline_dir_ctx := None;
                 makedirs_error := fun _ => None;
                 made_dirs := [] |};
     requests := []; retrieved := []; stdout := [];
     sys_path := ["/usr/lib/python3"]; imported := [] |}.

(** The same session on a file system where nothing can be made under
    [/kaggle]. *)
Definition session_off_kaggle : Session :=
  {| world := {| scoped_pipeline_dir_ctx := None;
                 makedirs_error := fun d =>
                   if String.prefix "/kaggle" d then Some "PermissionError"
                   else None;
                 made_dirs := [] |};
     requests := []; retrieved := []; stdout := [];
     sys_path := ["/usr/lib/python3"]; imported := [] |}.

End FilesSpec.

Module FilesSamples.

Import DjFiles FilesSpec.

(** A listing of one file with a bare name, and a listing that names an
    absolute path. *)
Definition flat_specs : list (string * PyVal) :=
  [("weights.bin", VStr "https://storage/2")].

Definition flat_client_get (path : string) : Failure + PyVal :=
  inr (VDict [("files", VList [entry "weights.bin" "https://storage/2"])]).

Definition escaping_specs : list (string * PyVal) :=
  [("/root/.bashrc", VStr "https://storage/3")].

Definition escaping_client_get (path : string) : Failure + PyVal :=
  inr (VDict [("files", VList [entry "/root/.bashrc" "https://storage/3"])]).

Definition alice_iris_dir : string := "/kaggle/tmp/code/alice_iris".

End FilesSamples.

(** * Properties *)

(** Membership in, and absence from, an explicit list of names. *)
Ltac in_names :=
  repeat first [apply list_elem_of_here | apply list_elem_of_further].

Ltac not_in_names H :=
  repeat (apply elem_of_cons in H as [H | H]; [discriminate H |]);
  apply elem_of_nil in H; exact H.

(** ** The registration statements *)

Section InitFacts.

Import Init Samples.

Lemma registered_on_model :
  registered_on model_resolver =
  [ModelHttpResolver; ModelKaggleCacheResolver; ModelColabCacheResolver].
Proof. reflexivity. Qed.

Lemma registered_on_dataset :
  registered_on dataset_resolver =
  [DatasetHttpResolver; DatasetKaggleCacheResolver; DatasetColabCacheResolver].
Proof. reflexivity. Qed.

Lemma registered_on_competition :
  registered_on competition_resolver =
  [CompetitionHttpResolver; CompetitionKaggleCacheResolver].
Proof. reflexivity. Qed.

(** The import of the package, as the sources stand, ends before the
    registration statements: whatever the modules outside the sources do,
    no call has been made. *)
Lemma import_registers_nothing
    (import_absent : string -> list string -> option Package.Failure) :
  snd (Package.import_package import_absent) = [].
Proof.
  unfold Package.import_package, Package.init_statements.
  cbn [app Package.run Package.exec String.eqb Ascii.eqb Bool.eqb].
  unfold Package.import_auth.
  destruct (import_absent "kagglehub.logger" []); [reflexivity |].
  destruct (import_absent "kagglehub" _); [reflexivity |].
  destruct (import_absent "kagglehub.config" _); [reflexivity |].
  vm_compute. reflexivity.
Qed.

(** C1, as stated, fails.  In the registration statements the HTTP
    resolver is on no registry the last implementation registered: the
    last one is an environment cache resolver.  Nor is it the last one in
    the chains the import of the package leaves behind, which are
    empty. *)
Lemma http_not_registered_last :
  (~ http_registered_last (registered_on model_resolver) /\
   ~ http_registered_last (registered_on dataset_resolver) /\
   ~ http_registered_last (registered_on competition_resolver)) /\
  (~ http_registered_last
       (chains_of (snd (Package.import_package (fun _ _ => None)))
          model_resolver) /\
   ~ http_registered_last
       (chains_of (snd (Package.import_package (fun _ _ => None)))
          dataset_resolver) /\
   ~ http_registered_last
       (chains_of (snd (Package.import_package (fun _ _ => None)))
          competition_resolver)).
Proof.
  split.
  - repeat split; intros [r [Hlast Hmod]]; vm_compute in Hlast;
      inversion Hlast; subst r; discriminate Hmod.
  - rewrite import_registers_nothing.
    repeat split; intros [r [Hlast _]]; discriminate Hlast.
Qed.

(** C1, amended: the registration statements register on every registry
    the HTTP resolver first, then the Kaggle cache resolver and then, for
    models and datasets, the Colab cache resolver; a run of the statements
    builds each chain in that order. *)
Theorem registrations_http_first (k : RegistryName) :
  registered_on k =
    match k with
    | model_resolver =>
        [ModelHttpResolver; ModelKaggleCacheResolver; ModelColabCacheResolver]
    | dataset_resolver =>
        [DatasetHttpResolver; DatasetKaggleCacheResolver;
         DatasetColabCacheResolver]
    | competition_resolver =>
        [CompetitionHttpResolver; CompetitionKaggleCacheResolver]
    end /\
  map module_of (registered_on k) =
    match k with
    | competition_resolver => [http_resolver; kaggle_cache_resolver]
    | _ => [http_resolver; kaggle_cache_resolver; colab_cache_resolver]
    end /\
  chains_of registrations k = registered_on k.
Proof. destruct k; repeat split; reflexivity. Qed.

End InitFacts.

(** ** HTTP failures and response post-processing *)

Section ExceptionsFacts.

Import Exceptions Samples.

(** The classes [kaggle_api_raise_for_status] can raise. *)
Lemma kaggle_api_raise_for_status_classes response handle err :
  raised (kaggle_api_raise_for_status response handle) = Some err ->
  class_name err ∈
    ["KaggleApiHTTP1Error"; "AttributeError"; "UnboundLocalError"; "HTTPException"].
Proof.
  unfold kaggle_api_raise_for_status, resource_url_of, getattr.
  destruct (raise_for_status response) as [e|]; [|discriminate].
  destruct (web_class e), handle as [h|], (url response), (status_code response);
    cbn; intros [= <-]; cbn; in_names.
Qed.

(** The classes [colab_raise_for_status] can raise. *)
Lemma colab_raise_for_status_classes response handle err :
  raised (colab_raise_for_status response handle) = Some err ->
  class_name err ∈ ["ColabHTTP1Error"; "AttributeError"; "HTTPException"].
Proof.
  unfold colab_raise_for_status, resource_url_of, getattr.
  destruct (raise_for_status response) as [e|]; [|discriminate].
  destruct (is_HTTPError (web_class e)), handle as [h|], (url response),
    (status response) as [st|]; cbn;
    try destruct ((st =? 401) || (st =? 403)); cbn;
    intros [= <-]; cbn; in_names.
Qed.

(** C2, as stated, fails: on a 401 response both handlers raise their own
    HTTP error class, not [UnauthenticatedError], and on a 404 response
    [colab_raise_for_status] raises [ColabHTTP1Error], not
    [NotFoundError]. *)
Lemma client_errors_not_taxonomy_errors :
  (exists m r c,
      kaggle_api_raise_for_status response_401 None =
        RaiseFrom (KaggleApiHTTP1Error m r) c) /\
  (exists m r c,
      colab_raise_for_status response_401 None =
        RaiseFrom (ColabHTTP1Error m r) c) /\
  (exists m r c,
      colab_raise_for_status response_404 None =
        RaiseFrom (ColabHTTP1Error m r) c) /\
  (forall m, raised (kaggle_api_raise_for_status response_401 None)
             <> Some (UnauthenticatedError m)) /\
  (forall m, raised (colab_raise_for_status response_401 None)
             <> Some (UnauthenticatedError m)) /\
  (forall m, raised (colab_raise_for_status response_404 None)
             <> Some (NotFoundError m)).
Proof.
  repeat split; try (do 3 eexists; reflexivity); intros m; discriminate.
Qed.

(** C2, amended: when [raise_for_status] raises [HTTPUnauthorized] or
    [HTTPForbidden] and the response has the attributes the handler reads
    ([status_code], and [url] unless a resource handle is given),
    [kaggle_api_raise_for_status] raises [KaggleApiHTTP1Error] with the
    permission guidance; when it raises any [HTTPError] and the response
    has [status] (and [url] unless a handle is given),
    [colab_raise_for_status] raises [ColabHTTP1Error], with the permission
    guidance for status 401 and 403 and with [str(e)] for any other
    status, 404 included.  On a response that lacks an attribute the
    handler reads, the handler raises [AttributeError] for it.  Neither
    raises [UnauthenticatedError] or [NotFoundError]. *)
Theorem raise_for_status_client_errors
    (response : Response) (handle : option ResourceHandle)
    (e : WebException) :
  raise_for_status response = Some e ->
  (web_class e = HTTPUnauthorized \/ web_class e = HTTPForbidden ->
   (forall resource_url code,
      resource_url_of response handle = Ok resource_url ->
      status_code response = Some code ->
      kaggle_api_raise_for_status response handle =
        RaiseFrom (KaggleApiHTTP1Error (permission_message code resource_url)
                                       (Some response)) e) /\
   (handle = None -> url response = None ->
      kaggle_api_raise_for_status response handle =
        Raise (AttributeError "url")) /\
   (forall resource_url,
      resource_url_of response handle = Ok resource_url ->
      status_code response = None ->
      kaggle_api_raise_for_status response handle =
        Raise (AttributeError "status_code"))) /\
  (is_HTTPError (web_class e) = true ->
   (forall resource_url st,
      resource_url_of response handle = Ok resource_url ->
      status response = Some st ->
      colab_raise_for_status response handle =
        RaiseFrom (ColabHTTP1Error
                     (if (st =? 401) || (st =? 403)
                      then permission_message st resource_url
                      else web_str e)
                     (Some response)) e) /\
   (handle = None -> url response = None ->
      colab_raise_for_status response handle =
        Raise (AttributeError "url")) /\
   (forall resource_url,
      resource_url_of response handle = Ok resource_url ->
      status response = None ->
      colab_raise_for_status response handle =
        Raise (AttributeError "status"))) /\
  (forall err,
     raised (kaggle_api_raise_for_status response handle) = Some err \/
     raised (colab_raise_for_status response handle) = Some err ->
     class_name err <> "UnauthenticatedError" /\
     class_name err <> "NotFoundError").
Proof.
  intros Hraise. split; [|split].
  - intros Hc. unfold kaggle_api_raise_for_status. rewrite Hraise.
    split; [|split].
    + intros resource_url code Hurl Hcode.
      destruct Hc as [-> | ->]; rewrite Hurl, Hcode; reflexivity.
    + intros -> Hurl. unfold resource_url_of, getattr. rewrite Hurl.
      destruct Hc as [-> | ->]; reflexivity.
    + intros resource_url Hurl Hcode.
      destruct Hc as [-> | ->]; rewrite Hurl, Hcode; reflexivity.
  - intros Hc. unfold colab_raise_for_status. rewrite Hraise, Hc.
    split; [|split].
    + intros resource_url st Hurl Hst. rewrite Hurl, Hst. cbn.
      destruct ((st =? 401) || (st =? 403)); reflexivity.
    + intros -> Hurl. unfold resource_url_of, getattr. rewrite Hurl.
      reflexivity.
    + intros resource_url Hurl Hst. rewrite Hurl, Hst. reflexivity.
  - intros err [H | H];
      [apply kaggle_api_raise_for_status_classes in H
      |apply colab_raise_for_status_classes in H];
      split; intros Heq; rewrite Heq in H; not_in_names H.
Qed.

Lemma raise_for_status_client_errors_witness :
  kaggle_api_raise_for_status response_403 (Some sample_handle) =
    RaiseFrom (KaggleApiHTTP1Error
                 (permission_message 403 "https://www.kaggle.com/models/google/bert")
                 (Some response_403))
              (mkWebException HTTPForbidden "Forbidden") /\
  colab_raise_for_status response_status_only None =
    RaiseFrom (ColabHTTP1Error (permission_message 401 sample_url)
                               (Some response_status_only))
              (mkWebException HTTPUnauthorized "Unauthorized") /\
  kaggle_api_raise_for_status response_status_only None =
    Raise (AttributeError "status_code").
Proof.
  split; [|split].
  - destruct (raise_for_status_client_errors response_403 (Some sample_handle)
                (mkWebException HTTPForbidden "Forbidden") eq_refl)
      as [H _].
    destruct (H (or_intror eq_refl)) as [H1 _].
    apply (H1 "https://www.kaggle.com/models/google/bert" 403);
      reflexivity.
  - destruct (raise_for_status_client_errors response_status_only None
                (mkWebException HTTPUnauthorized "Unauthorized") eq_refl)
      as (_ & H & _).
    destruct (H eq_refl) as [H1 _].
    apply (H1 sample_url 401); reflexivity.
  - destruct (raise_for_status_client_errors response_status_only None
                (mkWebException HTTPUnauthorized "Unauthorized") eq_refl)
      as [H _].
    destruct (H (or_introl eq_refl)) as (_ & _ & H3).
    apply (H3 sample_url); reflexivity.
Defined.

(** C9: when [raise_for_status] raises [HTTPNotFound],
    [kaggle_api_raise_for_status] does not get as far as raising
    [KaggleApiHTTP1Error]: reading the unassigned local [resource_url]
    raises [UnboundLocalError] (or, on a response without [status_code],
    the attribute access fails first). *)
Theorem kaggle_not_found_unbound_local
    (response : Response) (handle : option ResourceHandle) (e : WebException) :
  raise_for_status response = Some e ->
  web_class e = HTTPNotFound ->
  kaggle_api_raise_for_status response handle =
    match status_code response with
    | Some _ => Raise (UnboundLocalError "resource_url")
    | None => Raise (AttributeError "status_code")
    end.
Proof.
  intros Hraise Hc. unfold kaggle_api_raise_for_status.
  rewrite Hraise, Hc. destruct (status_code response); reflexivity.
Qed.

Lemma kaggle_not_found_unbound_local_witness :
  kaggle_api_raise_for_status response_404 (Some sample_handle) =
    Raise (UnboundLocalError "resource_url").
Proof.
  apply (kaggle_not_found_unbound_local response_404 (Some sample_handle)
           (mkWebException HTTPNotFound "Not Found") eq_refl eq_refl).
Defined.

End ExceptionsFacts.

Section PostResponseFacts.

Import Exceptions Samples.

Variable int_of_str : string -> option Z.

Local Abbreviation py_int := (Exceptions.py_int int_of_str).
Local Abbreviation process_post_response :=
  (Exceptions.process_post_response int_of_str).

Lemma ne_empty_str_true (v : PyVal) :
  ne_empty_str v = true <-> v <> VStr EmptyString.
Proof.
  destruct v as [| b | z | f | [| c s] | l | d]; cbn; split;
    congruence || (intros; discriminate) || idtac.
Qed.

Lemma ne_empty_str_false (v : PyVal) :
  ne_empty_str v = false -> v = VStr EmptyString.
Proof. destruct v as [| b | z | f | [| c s] | l | d]; cbn; congruence. Qed.

(** What [process_post_response] does once the ["code"] field, or its
    default, is known to be the number [n]. *)
Lemma process_post_response_number (response : gmap string PyVal) (n : Num) :
  as_number (default (VInt 200) (response !! "code")) = Some n ->
  process_post_response response =
    if num_in_range n then
      match response !! "error" with
      | Some err =>
          if ne_empty_str err then
            match response !! "errorCode" with
            | Some v => z ← py_int v; Raise (BackendError err (Some z))
            | None => Raise (BackendError err None)
            end
          else Ok tt
      | None => Ok tt
      end
    else
      Raise (BackendError
               (default (VStr "No error message provided") (response !! "message"))
               None).
Proof.
  intros Hn. unfold Exceptions.process_post_response, py_le, py_lt, num_in_range.
  rewrite Hn. cbn [as_number mbind Outcome_bind].
  destruct (num_le 200 n); cbn; [|reflexivity].
  destruct (num_lt n 300); cbn; [|reflexivity].
  destruct (response !! "error") as [err|]; [|reflexivity].
  destruct (ne_empty_str err); [|reflexivity].
  destruct (response !! "errorCode") as [v|]; [|reflexivity].
  cbn. destruct (py_int v); reflexivity.
Qed.

Lemma code_ok_number (response : gmap string PyVal) (n : Num) :
  as_number (default (VInt 200) (response !! "code")) = Some n ->
  code_ok response = num_in_range n.
Proof. intros Hn. unfold code_ok. rewrite Hn. reflexivity. Qed.

(** On an integer the range test is the one on integers. *)
Lemma num_in_range_int (z : Z) :
  num_in_range z = (200 <=? z) && (z <? 300).
Proof. reflexivity. Qed.

(** With a numeric ["code"], the code is out of range exactly when the
    range test of the source fails. *)
Lemma code_out_of_range_number (response : gmap string PyVal) (n : Num) :
  as_number (default (VInt 200) (response !! "code")) = Some n ->
  code_out_of_range response <-> num_in_range n = false.
Proof.
  intros Hn. unfold code_out_of_range. split.
  - intros (v & m & Hv & Hm & Hout). rewrite Hv in Hn. cbn in Hn.
    congruence.
  - intros Hb. destruct (response !! "code") as [v|] eqn:Hv; cbn in Hn.
    + exists v, n. repeat split; assumption.
    + injection Hn as <-. discriminate Hb.
Qed.

(** C3, amended: for a body whose ["code"] field, if present, is a number
    (an integer, a boolean or a float) and whose ["errorCode"] field, if
    present, converts with [int], [process_post_response] raises
    [BackendError] if and only if the ["code"] field is present and
    outside [200, 300) or the ["error"] field is present with a value
    other than the empty string; in all other cases it returns
    normally. *)
Theorem process_post_response_raises_iff (response : gmap string PyVal) :
  (forall v, response !! "code" = Some v -> is_Some (as_number v)) ->
  (forall v, response !! "errorCode" = Some v -> exists z, py_int v = Ok z) ->
  (raises_BackendError (process_post_response response) <->
     code_out_of_range response \/ error_differs_from_empty response) /\
  (~ (code_out_of_range response \/ error_differs_from_empty response) ->
     process_post_response response = Ok tt).
Proof.
  intros Hcode Hint.
  assert (exists n, as_number (default (VInt 200) (response !! "code")) = Some n)
    as [n Hn].
  { destruct (response !! "code") as [v|] eqn:Hv; cbn.
    - destruct (Hcode v eq_refl) as [n Hn]. exists n. exact Hn.
    - exists (NInt 200). reflexivity. }
  pose proof (process_post_response_number response n Hn) as Hrun.
  pose proof (code_out_of_range_number response n Hn) as Hrange.
  unfold raises_BackendError, error_differs_from_empty.
  destruct (num_in_range n) eqn:Hok.
  - (* the code is in range: the "error" field decides *)
    assert (~ code_out_of_range response) as Hin.
    { intros H. apply Hrange in H. discriminate H. }
    destruct (response !! "error") as [err|] eqn:Herr.
    + destruct (ne_empty_str err) eqn:Hne.
      * assert (exists c, process_post_response response =
                          Raise (BackendError err c)) as [c Hc].
        { destruct (response !! "errorCode") as [v|] eqn:Hv.
          - destruct (Hint v eq_refl) as [z Hz]. exists (Some z).
            rewrite Hrun, Hz. reflexivity.
          - exists None. exact Hrun. }
        apply ne_empty_str_true in Hne. split.
        -- split; [intros _|intros _; exists err, c; exact Hc].
           right. exists err. split; [reflexivity | exact Hne].
        -- intros Hno. exfalso. apply Hno. right. exists err.
           split; [reflexivity | exact Hne].
      * assert (err = VStr EmptyString) as ->.
        { apply ne_empty_str_false. exact Hne. }
        split; [|intros _; exact Hrun].
        rewrite Hrun. split.
        -- intros (m & c & H). discriminate H.
        -- intros [H | (v & Hv & Hne')]; [contradiction|].
           injection Hv as <-. contradiction.
    + split; [|intros _; exact Hrun].
      rewrite Hrun. split.
      * intros (m & c & H). discriminate H.
      * intros [H | (v & Hv & _)]; [contradiction | discriminate Hv].
  - (* the code is out of range *)
    split.
    + split; [intros _; left; apply Hrange; reflexivity|].
      intros _. rewrite Hrun. eauto.
    + intros Hno. exfalso. apply Hno. left. apply Hrange. reflexivity.
Qed.

(** C4, amended: when [process_post_response] raises [BackendError] on a
    body with a numeric ["errorCode"], the error raised from the
    non-empty-["error"] branch (the ["code"] field absent or in range)
    carries [int] of that number as [error_code], the number itself when
    it is an integer and its truncation towards zero when it is a float,
    and the ["error"] value as message; the error raised from the
    out-of-range-["code"] branch has [error_code] [None]. *)
Theorem backend_error_code_by_branch
    (response : gmap string PyVal) (v : PyVal) (n : Num)
    (m : PyVal) (c : option Z) :
  response !! "errorCode" = Some v ->
  as_number v = Some n ->
  process_post_response response = Raise (BackendError m c) ->
  if code_ok response
  then response !! "error" = Some m /\
       match n with
       | NInt z => c = Some z
       | NFloat (FFinite q) => c = Some (Z.quot (Qnum q) (Z.pos (Qden q)))
       | NFloat _ => False
       end
  else c = None.
Proof.
  intros Hec Hnum Hraise.
  destruct (as_number (default (VInt 200) (response !! "code"))) as [k|] eqn:Hk.
  - rewrite (code_ok_number response k Hk).
    rewrite (process_post_response_number response k Hk), Hec in Hraise.
    destruct (num_in_range k).
    + destruct (response !! "error") as [err|]; [|discriminate Hraise].
      destruct (ne_empty_str err); [|discriminate Hraise].
      destruct v as [| b | z | [| neg | q] | s | l | d]; cbn in Hnum;
        try discriminate Hnum; injection Hnum as <-; cbn in Hraise;
        try discriminate Hraise; injection Hraise as <- <-;
        split; reflexivity.
    + injection Hraise as _ <-. reflexivity.
  - exfalso. unfold Exceptions.process_post_response, py_le in Hraise.
    rewrite Hk in Hraise. cbn in Hraise. discriminate Hraise.
Qed.

End PostResponseFacts.

Section PostResponseWitnesses.

Import Exceptions Samples.

(** The sample bodies hold no text under ["errorCode"]: on them the
    built-in [int] on text is never called, and this stands in for it. *)
Local Abbreviation no_text := (fun _ : string => @None Z).

(** C3, as stated, fails (the body holds no text to convert, so the
    built-in [int] on text is not called): a body whose ["error"] field is [null] has no
    out-of-range ["code"] and no non-empty string under ["error"], and
    [process_post_response] raises [BackendError] on it. *)
Lemma backend_error_on_null_error :
  process_post_response no_text body_error_null = Raise (BackendError VNone None) /\
  raises_BackendError (process_post_response no_text body_error_null) /\
  ~ (code_out_of_range body_error_null \/
     error_is_nonempty_string body_error_null).
Proof.
  split; [reflexivity |]. split.
  - exists VNone, None. reflexivity.
  - intros [(v & n & Hv & _) | (s & Hs & _)].
    + vm_compute in Hv. discriminate Hv.
    + vm_compute in Hs. discriminate Hs.
Qed.

(** C4, as stated, fails (the bodies hold no text to convert, so the
    built-in [int] on text is not called): a body with an out-of-range ["code"] and a
    numeric ["errorCode"] makes [process_post_response] raise a
    [BackendError] whose [error_code] is [None]; and a body whose
    ["errorCode"] is the float 7.9 makes it raise one whose [error_code]
    is 7. *)
Lemma backend_error_code_dropped :
  body_code_500 !! "errorCode" = Some (VInt 7) /\
  process_post_response no_text body_code_500 =
    Raise (BackendError (VStr "No error message provided") None) /\
  ~ (forall m c, process_post_response no_text body_code_500 = Raise (BackendError m c) ->
                 c = Some 7) /\
  body_error_code_float !! "errorCode" = Some (VFloat float_7_9) /\
  process_post_response no_text body_error_code_float =
    Raise (BackendError (VStr "Quota exceeded") (Some 7)).
Proof.
  split; [reflexivity |]. split; [reflexivity |]. split.
  - intros H. specialize (H _ _ eq_refl). discriminate H.
  - split; reflexivity.
Qed.


Lemma process_post_response_raises_iff_witness :
  raises_BackendError
    (process_post_response no_text body_error_code_float).
Proof.
  assert (forall v, body_error_code_float !! "code" = Some v ->
                    is_Some (as_number v)) as Hcode.
  { intros v H. vm_compute in H. injection H as <-. eexists. reflexivity. }
  assert (forall v, body_error_code_float !! "errorCode" = Some v ->
                    exists z, py_int no_text v = Ok z) as Hint.
  { intros v H. vm_compute in H. injection H as <-. exists 7. reflexivity. }
  apply (proj1 (process_post_response_raises_iff no_text
                  body_error_code_float Hcode Hint)).
  right. exists (VStr "Quota exceeded"). split; [reflexivity | discriminate].
Defined.

Lemma backend_error_code_by_branch_witness :
  if code_ok body_error_code_float
  then body_error_code_float !! "error" = Some (VStr "Quota exceeded") /\
       Some 7 = Some (Z.quot 79 10)
  else Some 7 = None.
Proof.
  exact (backend_error_code_by_branch no_text body_error_code_float
           (VFloat float_7_9) (NFloat float_7_9)
           (VStr "Quota exceeded") (Some 7) eq_refl eq_refl eq_refl).
Defined.

End PostResponseWitnesses.

(** ** The classes of the exceptions module *)

Section TaxonomyFacts.

Import Exceptions Samples.

(** Every exception a constructor of which belongs to the module is named
    in [module_classes], and every name there has such a constructor. *)
Lemma module_classes_complete (name : string) :
  name ∈ module_classes <->
  exists e, class_name e = name /\
            class_name e ∉ ["TypeError"; "ValueError"; "OverflowError";
                            "OSError"; "AttributeError"; "UnboundLocalError";
                            "HTTPException"].
Proof.
  split.
  - intros H. unfold module_classes in H.
    repeat (apply elem_of_cons in H as [-> | H];
            [first
               [ exists (CredentialError EmptyString); split; [reflexivity|]
               | exists (KaggleEnvironmentError EmptyString); split; [reflexivity|]
               | exists (ColabEnvironmentError EmptyString); split; [reflexivity|]
               | exists (BackendError VNone None); split; [reflexivity|]
               | exists (NotFoundError EmptyString); split; [reflexivity|]
               | exists (DataCorruptionError EmptyString); split; [reflexivity|]
               | exists (KaggleApiHTTP1Error EmptyString None); split; [reflexivity|]
               | exists (ColabHTTP1Error EmptyString None); split; [reflexivity|]
               | exists (KaggleApiHTTPError EmptyString None); split; [reflexivity|]
               | exists (ColabHTTPError EmptyString None); split; [reflexivity|]
               | exists (UnauthenticatedError EmptyString); split; [reflexivity|] ];
             intros Hin; not_in_names Hin |]).
    apply elem_of_nil in H. contradiction.
  - intros (e & <- & Hnot).
    destruct e; cbn in *; try (unfold module_classes; in_names);
      exfalso; apply Hnot; in_names.
Qed.

(** C5, as stated, fails: the classes of the exceptions module are not
    the six kinds of the taxonomy; [ValidationError] is a kind that is not
    defined there and [CredentialError] is defined there without being one
    of the six. *)
Lemma module_classes_not_spec_taxonomy :
  ~ (forall name, name ∈ module_classes <-> name ∈ spec_taxonomy).
Proof.
  intros H. assert ("ValidationError" ∈ module_classes) as Hin.
  { apply H. unfold spec_taxonomy. in_names. }
  unfold module_classes in Hin. not_in_names Hin.
Qed.

(** C5, amended: the exceptions module defines eleven classes.  Four of
    them are kinds of the taxonomy ([BackendError], which takes a message
    and an optional error code, [NotFoundError], [DataCorruptionError] and
    [UnauthenticatedError]); [ValidationError] and
    [UnsupportedEnvironmentError] are not defined in it; the other seven
    are [CredentialError], [KaggleEnvironmentError],
    [ColabEnvironmentError] and the four HTTP error classes. *)
Theorem module_classes_against_taxonomy :
  length module_classes = 11%nat /\
  NoDup module_classes /\
  filter (fun name => name ∈ spec_taxonomy) module_classes =
    ["BackendError"; "NotFoundError"; "DataCorruptionError";
     "UnauthenticatedError"] /\
  filter (fun name => name ∉ module_classes) spec_taxonomy =
    ["ValidationError"; "UnsupportedEnvironmentError"] /\
  filter (fun name => name ∉ spec_taxonomy) module_classes =
    ["CredentialError"; "KaggleEnvironmentError"; "ColabEnvironmentError";
     "KaggleApiHTTP1Error"; "ColabHTTP1Error"; "KaggleApiHTTPError";
     "ColabHTTPError"] /\
  (forall m c, class_name (BackendError m c) = "BackendError").
Proof.
  split; [reflexivity |]. split; [apply (bool_decide_unpack _); vm_compute; reflexivity |].
  split; [vm_compute; reflexivity |]. split; [vm_compute; reflexivity |].
  split; [vm_compute; reflexivity |]. reflexivity.
Qed.

End TaxonomyFacts.

(** ** Pipeline-scoped paths *)

Section DjFacts.

Import Exceptions Dj Samples.

Lemma append_cons (c : ascii) (s t : string) :
  String c s +:+ t = String c (s +:+ t).
Proof. reflexivity. Qed.

Lemma ends_with_sep_app (s t : string) :
  t <> EmptyString -> ends_with_sep (s +:+ t) = ends_with_sep t.
Proof.
  intros Ht. induction s as [| c s IH]; [reflexivity |].
  rewrite append_cons. cbn [ends_with_sep].
  destruct (s +:+ t) eqn:E; [|exact IH].
  destruct s; [contradiction | discriminate E].
Qed.

Lemma is_empty_app (s t : string) :
  t <> EmptyString -> is_empty (s +:+ t) = false.
Proof.
  intros Ht. destruct s; [destruct t; [contradiction | reflexivity] | reflexivity].
Qed.

(** The assets directory is never empty and never ends with a separator. *)
Lemma assets_dir_shape (d : string) :
  is_empty (os_path_join d ["assets"]) = false /\
  ends_with_sep (os_path_join d ["assets"]) = false.
Proof.
  unfold os_path_join, join_step. cbn [foldl starts_with_sep].
  change (Ascii.eqb "a" sep) with false. cbv iota.
  destruct (is_empty d || ends_with_sep d).
  - split; [apply is_empty_app; discriminate |].
    rewrite ends_with_sep_app by discriminate. reflexivity.
  - split; [apply is_empty_app; discriminate |].
    rewrite ends_with_sep_app by discriminate. reflexivity.
Qed.

(** What [get_asset_path] does, in terms of the directory in effect and
    of the answer of the file system for its assets directory. *)
Lemma get_asset_path_run (path : string) (w : World) :
  get_asset_path path w =
    match makedirs_error w (assets_dir_in_effect (scoped_pipeline_dir_ctx w)) with
    | Some err => (Raise (OSError err), w)
    | None =>
        (Ok (os_path_join (pipeline_dir_in_effect (scoped_pipeline_dir_ctx w))
                          ["assets"; path]),
         {| scoped_pipeline_dir_ctx := scoped_pipeline_dir_ctx w;
            makedirs_error := makedirs_error w;
            made_dirs :=
              made_dirs w ++ [assets_dir_in_effect (scoped_pipeline_dir_ctx w)] |})
    end.
Proof.
  unfold get_asset_path, os_makedirs, assets_dir_in_effect,
    pipeline_dir_in_effect, default_pipeline_dir.
  destruct (scoped_pipeline_dir_ctx w) as [[[| c s] | s] |]; cbn [truthy fspath is_empty negb];
    match goal with
    | |- context [makedirs_error w ?d] => destruct (makedirs_error w d)
    end; reflexivity.
Qed.

(** C7, as stated, fails: the same argument yields different paths under
    different values of the context variable, and no path at all where
    the assets directory cannot be made. *)
Lemma get_asset_path_reads_ctx :
  fst (get_asset_path "model.pkl" world_unscoped) =
    Ok "/kaggle/working/assets/model.pkl" /\
  fst (get_asset_path "model.pkl" world_scoped) =
    Ok "/kaggle/tmp/code/alice_iris/assets/model.pkl" /\
  fst (get_asset_path "model.pkl" world_off_kaggle) =
    Raise (OSError "PermissionError") /\
  ~ (forall path w1 w2,
       fst (get_asset_path path w1) = fst (get_asset_path path w2)).
Proof.
  split; [reflexivity |]. split; [reflexivity |]. split; [reflexivity |].
  intros H. specialize (H "model.pkl" world_unscoped world_scoped).
  vm_compute in H. discriminate H.
Qed.

(** C7, amended: the outcome of [get_asset_path] depends on its argument,
    on the scoped pipeline directory in effect and on whether the file
    system lets [os.makedirs] make the assets directory under it, and on
    nothing else: two calls with the same argument, made under the same
    directory in effect and with the same answer of the file system for
    that assets directory, return the same path or raise the same
    error. *)
Theorem get_asset_path_depends_on_ctx_only (path : string) (w1 w2 : World) :
  pipeline_dir_in_effect (scoped_pipeline_dir_ctx w1) =
  pipeline_dir_in_effect (scoped_pipeline_dir_ctx w2) ->
  makedirs_error w1 (assets_dir_in_effect (scoped_pipeline_dir_ctx w1)) =
  makedirs_error w2 (assets_dir_in_effect (scoped_pipeline_dir_ctx w2)) ->
  fst (get_asset_path path w1) = fst (get_asset_path path w2).
Proof.
  intros Hdir Hfs. rewrite !get_asset_path_run, Hfs, Hdir.
  destruct (makedirs_error w2 _); reflexivity.
Qed.

Lemma get_asset_path_depends_on_ctx_only_witness :
  fst (get_asset_path "model.pkl" world_unscoped) =
  fst (get_asset_path "model.pkl"
         {| scoped_pipeline_dir_ctx := Some (PStr EmptyString);
            makedirs_error := fun d =>
              if String.prefix "/etc" d then Some "PermissionError" else None;
            made_dirs := ["/kaggle/working/assets"] |}).
Proof.
  apply (get_asset_path_depends_on_ctx_only "model.pkl" world_unscoped
           {| scoped_pipeline_dir_ctx := Some (PStr EmptyString);
              makedirs_error := fun d =>
                if String.prefix "/etc" d then Some "PermissionError" else None;
              made_dirs := ["/kaggle/working/assets"] |});
    reflexivity.
Defined.

(** C10, as stated, fails: where the assets directory cannot be made,
    [get_asset_path] returns no path for a relative argument; it raises
    the [OSError] of [os.makedirs]. *)
Lemma get_asset_path_makedirs_fails :
  is_relative "model.pkl" /\
  get_asset_path "model.pkl" world_off_kaggle =
    (Raise (OSError "PermissionError"), world_off_kaggle) /\
  get_asset_path "model.pkl" world_under_file =
    (Raise (OSError "NotADirectoryError"), world_under_file) /\
  ~ (forall p w, is_relative p ->
       fst (get_asset_path p w) =
         Ok (os_path_join (pipeline_dir_in_effect (scoped_pipeline_dir_ctx w))
                          ["assets"; p])).
Proof.
  split; [reflexivity |]. split; [reflexivity |]. split; [reflexivity |].
  intros H. specialize (H "model.pkl" world_off_kaggle eq_refl).
  vm_compute in H. discriminate H.
Qed.

(** C10, amended: for a relative path [p], when [os.makedirs] can make
    the assets directory (or finds it), [get_asset_path p] returns the
    join of the pipeline directory in effect, ["assets"] and [p], that is
    the assets directory, a separator and [p], and the assets directory is
    there afterwards; when [os.makedirs] raises, [get_asset_path p] raises
    that error and changes nothing. *)
Theorem get_asset_path_join (p : string) (w : World) :
  is_relative p ->
  let d := pipeline_dir_in_effect (scoped_pipeline_dir_ctx w) in
  let assets := os_path_join d ["assets"] in
  (makedirs_error w assets = None ->
   fst (get_asset_path p w) = Ok (os_path_join d ["assets"; p]) /\
   fst (get_asset_path p w) = Ok (assets +:+ String sep EmptyString +:+ p) /\
   made_dirs (snd (get_asset_path p w)) = (made_dirs w ++ [assets])%list) /\
  (forall err, makedirs_error w assets = Some err ->
   get_asset_path p w = (Raise (OSError err), w)).
Proof.
  intros Hrel d assets. rewrite get_asset_path_run.
  fold d. unfold assets_dir_in_effect. fold d. fold assets. split.
  - intros ->. cbn [fst snd made_dirs]. split; [reflexivity |].
    split; [|reflexivity]. f_equal.
    change (os_path_join d ["assets"; p]) with (join_step assets p).
    unfold join_step. rewrite Hrel.
    destruct (assets_dir_shape d) as [H1 H2]. fold assets in H1, H2.
    rewrite H1, H2. reflexivity.
  - intros err ->. reflexivity.
Qed.

Lemma get_asset_path_join_witness :
  fst (get_asset_path "weights/model.pkl" world_scoped) =
    Ok "/kaggle/tmp/code/alice_iris/assets/weights/model.pkl".
Proof.
  destruct (get_asset_path_join "weights/model.pkl" world_scoped eq_refl)
    as [H _].
  destruct (H eq_refl) as (_ & H2 & _).
  exact H2.
Defined.

(** C8: the wrapper made by [pipeline_scoped] leaves the context variable
    as it found it, whether the wrapped function returns or raises, and
    whatever that function did to the variable; the outcome of the wrapper
    is the outcome of the function, so a value it returns is returned
    unchanged. *)
Theorem pipeline_scoped_restores_ctx {A R : Type}
    (pathlib_parent : string -> string) (func : Callable A R)
    (args : A) (w : World) :
  scoped_pipeline_dir_ctx (snd (pipeline_scoped pathlib_parent func args w)) =
    scoped_pipeline_dir_ctx w /\
  (forall d r w',
     pipeline_dir_of pathlib_parent func = Ok d ->
     call func args (ctx_set (Some d) w) = (r, w') ->
     fst (pipeline_scoped pathlib_parent func args w) = r /\
     made_dirs (snd (pipeline_scoped pathlib_parent func args w)) = made_dirs w').
Proof.
  unfold pipeline_scoped. split.
  - destruct (pipeline_dir_of pathlib_parent func) as [d | e | e c];
      [|reflexivity|reflexivity].
    destruct (call func args (ctx_set (Some d) w)) as [r w']. reflexivity.
  - intros d r w' Hd Hcall. rewrite Hd, Hcall. split; reflexivity.
Qed.

Lemma pipeline_scoped_restores_ctx_witness :
  (scoped_pipeline_dir_ctx
     (snd (pipeline_scoped os_path_dirname sample_func tt world_scoped)) =
   scoped_pipeline_dir_ctx world_scoped /\
   fst (pipeline_scoped os_path_dirname sample_func tt world_scoped) = Ok 42) /\
  (scoped_pipeline_dir_ctx
     (snd (pipeline_scoped os_path_dirname sample_func_raising tt world_unscoped)) =
   scoped_pipeline_dir_ctx world_unscoped /\
   fst (pipeline_scoped os_path_dirname sample_func_raising tt world_unscoped) =
     Raise ValueError).
Proof.
  split.
  - destruct (pipeline_scoped_restores_ctx os_path_dirname sample_func tt
                world_scoped) as [Hctx Hout].
    split; [exact Hctx |].
    destruct (Hout (PPath "/kaggle/tmp/code/alice_iris") (Ok 42)
                (ctx_set (Some (PStr "/elsewhere")) world_scoped)
                eq_refl eq_refl) as [H _].
    exact H.
  - destruct (pipeline_scoped_restores_ctx os_path_dirname sample_func_raising
                tt world_unscoped) as [Hctx Hout].
    split; [exact Hctx |].
    destruct (Hout (PPath "/kaggle/tmp/code/alice_iris") (Raise ValueError)
                (ctx_set (Some (PStr "/elsewhere")) world_unscoped)
                eq_refl eq_refl) as [H _].
    exact H.
Defined.

End DjFacts.

(** ** The resolver registry *)

Section RegistryFacts.

Import Registry Samples.

Context {Handle World Path : Type}.

Abbreviation Resolver := (Registry.Resolver Handle World Path).

(** Resolvers that report themselves unsupported are probed and skipped;
    the first supported one is probed, then asked to resolve, and nothing
    is called after it. *)
Lemma resolve_from_first_supported
    (pre : list Resolver) (r : Resolver) (post : list Resolver)
    (h : Handle) (w : World) (i : nat) :
  Forall (fun r' => is_supported r' h w = false) pre ->
  is_supported r h w = true ->
  resolve_from i (pre ++ r :: post) h w =
    ((map Probe (seq i (length pre)) ++
        [Probe (i + length pre); Attempt (i + length pre)])%list,
     fst (resolve r h w), snd (resolve r h w)).
Proof.
  intros Hpre Hr. revert i.
  induction Hpre as [| r' pre Hr' Hpre IH]; intros i; cbn.
  - rewrite Hr, Nat.add_0_r. destruct (resolve r h w). reflexivity.
  - rewrite Hr', IH. cbn. rewrite Nat.add_succ_r. reflexivity.
Qed.

Lemma probes_bounded (i n : nat) (c : Call) :
  c ∈ map Probe (seq i n) -> (call_index c < i + n)%nat.
Proof.
  intros H. apply list_elem_of_fmap in H as (j & -> & Hj).
  apply list_elem_of_In, in_seq in Hj. cbn. lia.
Qed.

(** C6: once the resolvers before it have reported themselves unsupported
    and a resolver has reported itself supported, a [NotFoundError] or
    [BackendError] raised by its [resolve] is the outcome of the
    registry's [resolve], and no resolver registered after it is called,
    neither probed nor asked to resolve. *)
Theorem registry_propagates_committed_failure
    (pre : list Resolver) (r : Resolver) (post : list Resolver)
    (h : Handle) (w w' : World) (e : Error) :
  Forall (fun r' => is_supported r' h w = false) pre ->
  is_supported r h w = true ->
  resolve r h w = (Failed e, w') ->
  is_expected_failure e = true ->
  exists calls,
    registry_resolve (pre ++ r :: post) h w = (calls, Failed e, w') /\
    last calls = Some (Attempt (length pre)) /\
    (forall c, c ∈ calls -> (call_index c <= length pre)%nat).
Proof.
  intros Hpre Hr Hres _. unfold registry_resolve.
  rewrite (resolve_from_first_supported pre r post h w 0 Hpre Hr), Hres.
  eexists. split; [reflexivity |]. cbn [fst snd Nat.add]. split.
  - rewrite last_app. reflexivity.
  - intros c Hc. apply elem_of_app in Hc as [Hc | Hc].
    + apply probes_bounded in Hc. lia.
    + apply elem_of_cons in Hc as [-> | Hc]; [cbn; lia |].
      apply elem_of_cons in Hc as [-> | Hc]; [cbn; lia |].
      apply elem_of_nil in Hc. contradiction.
Qed.

End RegistryFacts.

Section RegistryWitness.

Import Registry Samples.

Lemma registry_propagates_committed_failure_witness :
  exists calls,
    registry_resolve [env_cache_unsupported; env_cache_not_found; http_downloads]
      "alice/iris" 0%nat = (calls, Failed NotFoundError, 0%nat) /\
    last calls = Some (Attempt 1) /\
    (forall c, c ∈ calls -> (call_index c <= 1)%nat).
Proof.
  apply (registry_propagates_committed_failure
           [env_cache_unsupported] env_cache_not_found [http_downloads]
           "alice/iris" 0%nat 0%nat NotFoundError).
  - repeat constructor.
  - reflexivity.
  - reflexivity.
  - reflexivity.
Defined.

End RegistryWitness.

(** * Further properties *)

(** ** The two status handlers *)

Section HandlerFacts.

Import Exceptions Samples MoreSamples.

(** X1: each handler returns normally exactly when
    [response.raise_for_status()] raises nothing: a failure is never
    swallowed and a success never turned into an error. *)
Theorem handlers_return_iff_no_failure
    (response : Response) (handle : option ResourceHandle) :
  (kaggle_api_raise_for_status response handle = Ok tt <->
   raise_for_status response = None) /\
  (colab_raise_for_status response handle = Ok tt <->
   raise_for_status response = None).
Proof.
  unfold kaggle_api_raise_for_status, colab_raise_for_status,
    resource_url_of, getattr.
  destruct (raise_for_status response) as [e|]; [|split; split; reflexivity].
  split; (split; [|discriminate]).
  - destruct (web_class e), handle, (url response), (status_code response);
      cbn; discriminate.
  - destruct (is_HTTPError (web_class e)), handle, (url response),
      (status response) as [st|]; cbn;
      try destruct ((st =? 401) || (st =? 403)); cbn; discriminate.
Qed.

(** X2: [kaggle_api_raise_for_status] lets every failure other than
    [HTTPUnauthorized], [HTTPForbidden] and [HTTPNotFound] through as it
    is, a server error included, without reading the response;
    [colab_raise_for_status] does so only for a failure that is not an
    [HTTPError]. *)
Theorem unhandled_failures_propagate
    (response : Response) (handle : option ResourceHandle) (e : WebException) :
  raise_for_status response = Some e ->
  (web_class e = HTTPErrorOther \/ web_class e = NotHTTPError ->
   kaggle_api_raise_for_status response handle = Raise (Uncaught e)) /\
  (web_class e = NotHTTPError ->
   colab_raise_for_status response handle = Raise (Uncaught e)).
Proof.
  intros Hraise. unfold kaggle_api_raise_for_status, colab_raise_for_status.
  rewrite Hraise. split.
  - intros [-> | ->]; reflexivity.
  - intros ->. reflexivity.
Qed.

Lemma unhandled_failures_propagate_witness :
  kaggle_api_raise_for_status response_500 None =
    Raise (Uncaught (mkWebException HTTPErrorOther "Internal Server Error")).
Proof.
  destruct (unhandled_failures_propagate response_500 None
              (mkWebException HTTPErrorOther "Internal Server Error") eq_refl)
    as [H _].
  apply H. left. reflexivity.
Defined.

(** X3: an error of a handler's own class is always raised [from] the
    exception [raise_for_status] raised and carries the response it was
    given. *)
Theorem handler_errors_carry_response_and_cause
    (response : Response) (handle : option ResourceHandle)
    (m : string) (resp : option Response) :
  (raised (kaggle_api_raise_for_status response handle) =
     Some (KaggleApiHTTP1Error m resp) ->
   resp = Some response /\
   exists c, raise_for_status response = Some c /\
             kaggle_api_raise_for_status response handle =
               RaiseFrom (KaggleApiHTTP1Error m resp) c) /\
  (raised (colab_raise_for_status response handle) =
     Some (ColabHTTP1Error m resp) ->
   resp = Some response /\
   exists c, raise_for_status response = Some c /\
             colab_raise_for_status response handle =
               RaiseFrom (ColabHTTP1Error m resp) c).
Proof.
  unfold kaggle_api_raise_for_status, colab_raise_for_status,
    resource_url_of, getattr.
  destruct (raise_for_status response) as [e|]; [|split; discriminate].
  split.
  - destruct (web_class e), handle, (url response), (status_code response);
      cbn; intros [= <- <-]; (split; [reflexivity |]); exists e;
      split; reflexivity.
  - destruct (is_HTTPError (web_class e)), handle, (url response),
      (status response) as [st|]; cbn;
      try destruct ((st =? 401) || (st =? 403)); cbn;
      intros [= <- <-]; (split; [reflexivity |]); exists e;
      split; reflexivity.
Qed.

Lemma handler_errors_carry_response_and_cause_witness :
  Some response_401 = Some response_401 /\
  exists c, raise_for_status response_401 = Some c /\
            colab_raise_for_status response_401 None =
              RaiseFrom (ColabHTTP1Error (permission_message 401 sample_url)
                                         (Some response_401)) c.
Proof.
  destruct (handler_errors_carry_response_and_cause response_401 None
              (permission_message 401 sample_url) (Some response_401))
    as [_ H].
  apply H. reflexivity.
Defined.

(** X4: with a resource handle the URL in the message is the handle's:
    the [url] attribute of the response is not read, so a response
    without it does not make the handlers fail with [AttributeError] on
    [url], and the permission message of [kaggle_api_raise_for_status]
    names [resource_handle.to_url()]. *)
Theorem handle_url_is_used
    (response : Response) (h : ResourceHandle) :
  raised (kaggle_api_raise_for_status response (Some h)) <>
    Some (AttributeError "url") /\
  raised (colab_raise_for_status response (Some h)) <>
    Some (AttributeError "url") /\
  (forall m resp,
     raised (kaggle_api_raise_for_status response (Some h)) =
       Some (KaggleApiHTTP1Error m resp) ->
     exists code, status_code response = Some code /\
                  m = permission_message code (to_url h)).
Proof.
  unfold kaggle_api_raise_for_status, colab_raise_for_status,
    resource_url_of, getattr.
  destruct (raise_for_status response) as [e|];
    [|repeat split; try discriminate; intros m resp H; discriminate H].
  split; [|split].
  - destruct (web_class e), (status_code response); cbn; discriminate.
  - destruct (is_HTTPError (web_class e)), (status response) as [st|]; cbn;
      try destruct ((st =? 401) || (st =? 403)); cbn; discriminate.
  - intros m resp.
    destruct (web_class e), (status_code response) as [code|]; cbn;
      intros [= <- <-]; exists code; split; reflexivity.
Qed.

Lemma handle_url_is_used_witness :
  exists code,
    status_code response_403_no_url = Some code /\
    permission_message 403 (to_url sample_handle) =
      permission_message code (to_url sample_handle).
Proof.
  destruct (handle_url_is_used response_403_no_url sample_handle)
    as (_ & _ & H).
  apply (H (permission_message 403 (to_url sample_handle))
           (Some response_403_no_url)).
  reflexivity.
Defined.

(** X5: without a handle, a client error on a response that has no [url]
    attribute fails with [AttributeError] instead of the handler's own
    error: for [HTTPUnauthorized] and [HTTPForbidden] in
    [kaggle_api_raise_for_status], for every [HTTPError] in
    [colab_raise_for_status]. *)
Theorem missing_url_without_handle
    (response : Response) (e : WebException) :
  raise_for_status response = Some e ->
  url response = None ->
  (web_class e = HTTPUnauthorized \/ web_class e = HTTPForbidden ->
   kaggle_api_raise_for_status response None = Raise (AttributeError "url")) /\
  (is_HTTPError (web_class e) = true ->
   colab_raise_for_status response None = Raise (AttributeError "url")).
Proof.
  intros Hraise Hurl.
  unfold kaggle_api_raise_for_status, colab_raise_for_status,
    resource_url_of, getattr.
  rewrite Hraise, Hurl. split.
  - intros [-> | ->]; reflexivity.
  - intros ->. reflexivity.
Qed.

Lemma missing_url_without_handle_witness :
  kaggle_api_raise_for_status response_403_no_url None =
    Raise (AttributeError "url") /\
  colab_raise_for_status response_403_no_url None =
    Raise (AttributeError "url").
Proof.
  destruct (missing_url_without_handle response_403_no_url
              (mkWebException HTTPForbidden "Forbidden") eq_refl eq_refl)
    as [H1 H2].
  split; [apply H1; right; reflexivity | apply H2; reflexivity].
Defined.

End HandlerFacts.

(** ** Post-processing of a response body *)

Section PostResponseMore.

Import Exceptions Samples MoreSamples.

Variable int_of_str : string -> option Z.

Local Abbreviation py_int := (Exceptions.py_int int_of_str).
Local Abbreviation process_post_response :=
  (Exceptions.process_post_response int_of_str).

(** X6: an out-of-range numeric ["code"], an integer or a float,
    decides alone: the [BackendError] carries the ["message"] field, or
    the fixed text when there is none, and no error code, whatever the
    ["error"] and ["errorCode"] fields hold. *)
Theorem out_of_range_code_decides
    (response : gmap string PyVal) (v : PyVal) :
  response !! "code" = Some v ->
  (forall n : Z,
     as_number v = Some (NInt n) ->
     ~ (200 <= n < 300) ->
     process_post_response response =
       Raise (BackendError
                (default (VStr "No error message provided") (response !! "message"))
                None)) /\
  (forall n : Num,
     as_number v = Some n ->
     num_in_range n = false ->
     process_post_response response =
       Raise (BackendError
                (default (VStr "No error message provided") (response !! "message"))
                None)).
Proof.
  intros Hv.
  assert (forall n : Num, as_number v = Some n -> num_in_range n = false ->
            process_post_response response =
              Raise (BackendError
                       (default (VStr "No error message provided")
                                (response !! "message")) None)) as Hgen.
  { intros n Hn Hout.
    assert (as_number (default (VInt 200) (response !! "code")) = Some n) as Hd.
    { rewrite Hv. exact Hn. }
    rewrite (process_post_response_number int_of_str response n Hd), Hout.
    reflexivity. }
  split; [|exact Hgen].
  intros n Hn Hout. apply (Hgen (NInt n) Hn). rewrite num_in_range_int.
  destruct (200 <=? n) eqn:E1, (n <? 300) eqn:E2; try reflexivity.
  apply Z.leb_le in E1. apply Z.ltb_lt in E2. exfalso. apply Hout. lia.
Qed.

(** X7: a ["code"] field that is not a number, a numeral in a string
    included, makes [process_post_response] fail with [TypeError],
    whatever else the body holds. *)
Theorem non_numeric_code_type_error
    (response : gmap string PyVal) (v : PyVal) :
  response !! "code" = Some v ->
  as_number v = None ->
  process_post_response response = Raise TypeError.
Proof.
  intros Hv Hn. unfold Exceptions.process_post_response, py_le.
  rewrite Hv. cbn. rewrite Hn. reflexivity.
Qed.

(** X8: in the ["error"] branch the error code is [int] of the
    ["errorCode"] field (an integer or a boolean as it is, a finite float
    truncated towards zero, text as the built-in converts it) and [None]
    when the field is absent. *)
Theorem error_code_is_converted
    (response : gmap string PyVal) (err : PyVal) :
  code_ok response = true ->
  response !! "error" = Some err ->
  err <> VStr EmptyString ->
  (forall v z, response !! "errorCode" = Some v -> py_int v = Ok z ->
     process_post_response response = Raise (BackendError err (Some z))) /\
  (response !! "errorCode" = None ->
     process_post_response response = Raise (BackendError err None)).
Proof.
  intros Hok Herr Hne. unfold code_ok in Hok.
  destruct (as_number (default (VInt 200) (response !! "code"))) as [n|] eqn:Hn;
    [|discriminate Hok].
  rewrite (process_post_response_number int_of_str response n Hn), Hok, Herr.
  apply ne_empty_str_true in Hne. rewrite Hne. split.
  - intros v z -> Hz. rewrite Hz. reflexivity.
  - intros ->. reflexivity.
Qed.

(** X9: when the ["errorCode"] field does not convert, the failure of
    [int] is what the caller gets, in place of the [BackendError] with
    the server's message: [TypeError] for [null], a list or a dict,
    [ValueError] for text the built-in rejects and for a NaN,
    [OverflowError] for an infinity. *)
Theorem error_code_conversion_failure
    (response : gmap string PyVal) (err v : PyVal) (e : Exc) :
  code_ok response = true ->
  response !! "error" = Some err ->
  err <> VStr EmptyString ->
  response !! "errorCode" = Some v ->
  py_int v = Raise e ->
  process_post_response response = Raise e /\
  (e = ValueError \/ e = TypeError \/ e = OverflowError).
Proof.
  intros Hok Herr Hne Hv He. unfold code_ok in Hok.
  destruct (as_number (default (VInt 200) (response !! "code"))) as [n|] eqn:Hn;
    [|discriminate Hok].
  rewrite (process_post_response_number int_of_str response n Hn), Hok, Herr, Hv.
  apply ne_empty_str_true in Hne. rewrite Hne, He. split; [reflexivity |].
  destruct v as [| b | z | [| neg | q] | s | l | d]; cbn in He;
    try discriminate He;
    try (injection He as <-; auto).
  destruct (int_of_str s); [discriminate He |].
  injection He as <-. auto.
Qed.

(** X10: the ["errorCode"] and ["message"] fields alone never make a
    body an error: with the ["code"] absent or in range and the ["error"]
    field absent or the empty string, [process_post_response] returns
    normally and does not look at them. *)
Theorem no_error_field_no_error (response : gmap string PyVal) :
  code_ok response = true ->
  response !! "error" = None \/ response !! "error" = Some (VStr EmptyString) ->
  process_post_response response = Ok tt.
Proof.
  intros Hok Herr. unfold code_ok in Hok.
  destruct (as_number (default (VInt 200) (response !! "code"))) as [n|] eqn:Hn;
    [|discriminate Hok].
  rewrite (process_post_response_number int_of_str response n Hn), Hok.
  destruct Herr as [-> | ->]; reflexivity.
Qed.

(** X11: [process_post_response] raises nothing but [BackendError],
    [TypeError], [ValueError] and [OverflowError], and never chains an
    exception. *)
Theorem process_post_response_raises_only (response : gmap string PyVal) :
  process_post_response response = Ok tt \/
  (exists m c, process_post_response response = Raise (BackendError m c)) \/
  process_post_response response = Raise TypeError \/
  process_post_response response = Raise ValueError \/
  process_post_response response = Raise OverflowError.
Proof.
  destruct (as_number (default (VInt 200) (response !! "code"))) as [n|] eqn:Hn.
  - rewrite (process_post_response_number int_of_str response n Hn).
    destruct (num_in_range n); [|right; left; eauto].
    destruct (response !! "error") as [err|]; [|left; reflexivity].
    destruct (ne_empty_str err); [|left; reflexivity].
    destruct (response !! "errorCode") as [v|]; [|right; left; eauto].
    destruct v as [| b | z | [| neg | q] | s | l | d]; cbn; eauto 7.
    destruct (int_of_str s); cbn; eauto 7.
  - right. right. left. unfold Exceptions.process_post_response, py_le.
    rewrite Hn. reflexivity.
Qed.

End PostResponseMore.

Section PostResponseMoreWitnesses.

Import Exceptions Samples MoreSamples.

Local Abbreviation no_text := (fun _ : string => @None Z).

Lemma out_of_range_code_decides_witness :
  process_post_response no_text body_gone =
    Raise (BackendError (VStr "gone") None).
Proof.
  destruct (out_of_range_code_decides no_text body_gone (VInt 404) eq_refl)
    as [H _].
  apply (H 404); [reflexivity | lia].
Defined.

Lemma non_numeric_code_type_error_witness :
  process_post_response no_text body_code_string = Raise TypeError.
Proof.
  apply (non_numeric_code_type_error no_text body_code_string (VStr "200")
           eq_refl eq_refl).
Defined.

Lemma error_code_is_converted_witness :
  process_post_response no_text body_error_code_float =
    Raise (BackendError (VStr "Quota exceeded") (Some 7)) /\
  process_post_response no_text body_error_code_true =
    Raise (BackendError (VStr "Quota exceeded") (Some 1)) /\
  process_post_response no_text body_error_only =
    Raise (BackendError (VStr "Quota exceeded") None).
Proof.
  assert (VStr "Quota exceeded" <> VStr EmptyString) as Hne by discriminate.
  split; [|split].
  - destruct (error_code_is_converted no_text body_error_code_float
                (VStr "Quota exceeded") eq_refl eq_refl Hne) as [H _].
    apply (H (VFloat float_7_9) 7); reflexivity.
  - destruct (error_code_is_converted no_text body_error_code_true
                (VStr "Quota exceeded") eq_refl eq_refl Hne) as [H _].
    apply (H (VBool true) 1); reflexivity.
  - destruct (error_code_is_converted no_text body_error_only
                (VStr "Quota exceeded") eq_refl eq_refl Hne) as [_ H].
    apply H. reflexivity.
Defined.

Lemma error_code_conversion_failure_witness :
  process_post_response no_text body_error_code_inf = Raise OverflowError /\
  (OverflowError = ValueError \/ OverflowError = TypeError \/
   OverflowError = OverflowError).
Proof.
  assert (VStr "Quota exceeded" <> VStr EmptyString) as Hne by discriminate.
  exact (error_code_conversion_failure no_text body_error_code_inf
           (VStr "Quota exceeded") (VFloat (FInf false)) OverflowError
           eq_refl eq_refl Hne eq_refl eq_refl).
Defined.

Lemma no_error_field_no_error_witness :
  process_post_response no_text body_error_code_only = Ok tt.
Proof.
  apply (no_error_field_no_error no_text body_error_code_only eq_refl).
  right. reflexivity.
Defined.

End PostResponseMoreWitnesses.

(** ** Asset paths under a scoped pipeline directory *)

Section DjMore.

Import Exceptions Dj Samples Scenarios.



(** A call of [get_asset_path] leaves the context variable and the file
    system's answers as they are. *)
Lemma get_asset_path_keeps_ctx (p : string) (w : World) :
  scoped_pipeline_dir_ctx (snd (get_asset_path p w)) =
    scoped_pipeline_dir_ctx w /\
  makedirs_error (snd (get_asset_path p w)) = makedirs_error w.
Proof.
  rewrite get_asset_path_run.
  destruct (makedirs_error w _); split; reflexivity.
Qed.

(** The code derives the directory as [module_pipeline_dir] says. *)
Lemma pipeline_dir_of_module {A R : Type} (pathlib_parent : string -> string)
    (func : Callable A R) (d : PathLike) :
  module_pipeline_dir pathlib_parent (module_file func) = Some d ->
  pipeline_dir_of pathlib_parent func = Ok d /\
  pipeline_dir_in_effect (Some d) = fspath d.
Proof.
  unfold module_pipeline_dir, pipeline_dir_of.
  destruct (module_file func) as [[file |] |]; intros [= <-];
    split; reflexivity.
Qed.

Lemma pipeline_scoped_ctx {A R : Type} (pathlib_parent : string -> string)
    (func : Callable A R) (args : A) (w : World) :
  scoped_pipeline_dir_ctx (snd (pipeline_scoped pathlib_parent func args w)) =
    scoped_pipeline_dir_ctx w.
Proof.
  unfold pipeline_scoped.
  destruct (pipeline_dir_of pathlib_parent func) as [d | e | e c];
    [|reflexivity|reflexivity].
  destruct (call func args (ctx_set (Some d) w)) as [r w']. reflexivity.
Qed.

(** X13: inside a function wrapped by [pipeline_scoped],
    [get_asset_path] answers under the directory derived from the
    function's own module (the parent of the directory of the module's
    file, or ["/kaggle/working"] for a module without [__file__]),
    whatever directory was in effect where the wrapper was called,
    provided [os.makedirs] can make the assets directory there; when it
    cannot, the wrapper raises that [OSError].  Either way the caller's
    directory is in effect again afterwards. *)
Theorem pipeline_scoped_get_asset_path
    (pathlib_parent : string -> string) (file : option (option string))
    (d : PathLike) (path : string) (w : World) :
  module_pipeline_dir pathlib_parent file = Some d ->
  let assets := os_path_join (fspath d) ["assets"] in
  pipeline_scoped pathlib_parent (asset_path_func file) path w =
    match makedirs_error w assets with
    | None =>
        (Ok (os_path_join (fspath d) ["assets"; path]),
         {| scoped_pipeline_dir_ctx := scoped_pipeline_dir_ctx w;
            makedirs_error := makedirs_error w;
            made_dirs := made_dirs w ++ [assets] |})
    | Some err =>
        (Raise (OSError err),
         {| scoped_pipeline_dir_ctx := scoped_pipeline_dir_ctx w;
            makedirs_error := makedirs_error w;
            made_dirs := made_dirs w |})
    end.
Proof.
  intros Hd assets.
  destruct (pipeline_dir_of_module pathlib_parent (asset_path_func file) d Hd)
    as [Hof Heff].
  unfold pipeline_scoped. rewrite Hof. cbn [call asset_path_func].
  rewrite get_asset_path_run.
  cbn [ctx_set scoped_pipeline_dir_ctx makedirs_error made_dirs].
  unfold assets_dir_in_effect. rewrite Heff. fold assets.
  destruct (makedirs_error w assets); reflexivity.
Qed.

Lemma pipeline_scoped_get_asset_path_witness :
  pipeline_scoped os_path_dirname (asset_path_func bob_module_file)
    "model.pkl" world_scoped =
    (Ok "/kaggle/tmp/code/bob_mnist/assets/model.pkl",
     {| scoped_pipeline_dir_ctx := Some (PPath "/kaggle/tmp/code/alice_iris");
        makedirs_error := makedirs_error world_scoped;
        made_dirs := ["/kaggle/tmp/code/bob_mnist/assets"] |}).
Proof.
  exact (pipeline_scoped_get_asset_path os_path_dirname bob_module_file
           (PPath "/kaggle/tmp/code/bob_mnist") "model.pkl" world_scoped
           eq_refl).
Defined.

(** X14: wrappers nest.  After a wrapped function of another module has
    returned, [get_asset_path] in the calling wrapped function answers
    under the directory derived from the caller's module again, even when
    the callee changed the context variable itself, provided
    [os.makedirs] can make the assets directory there; and the directory
    of the outermost caller is in effect at the end. *)
Theorem pipeline_scoped_nested {A R : Type}
    (pathlib_parent : string -> string) (file : option (option string))
    (f : Callable A R) (a : A) (d : PathLike) (v : R)
    (path : string) (w : World) :
  module_pipeline_dir pathlib_parent file = Some d ->
  let inner := pipeline_scoped pathlib_parent f a (ctx_set (Some d) w) in
  fst inner = Ok v ->
  makedirs_error (snd inner) (os_path_join (fspath d) ["assets"]) = None ->
  fst (pipeline_scoped pathlib_parent
         (call_then_asset_path pathlib_parent file f a) path w) =
    Ok (os_path_join (fspath d) ["assets"; path]) /\
  scoped_pipeline_dir_ctx
    (snd (pipeline_scoped pathlib_parent
            (call_then_asset_path pathlib_parent file f a) path w)) =
    scoped_pipeline_dir_ctx w.
Proof.
  intros Hd inner Hf Hfs. split; [|apply pipeline_scoped_ctx].
  destruct (pipeline_dir_of_module pathlib_parent
              (call_then_asset_path pathlib_parent file f a) d Hd)
    as [Hof Heff].
  pose proof (pipeline_scoped_ctx pathlib_parent f a (ctx_set (Some d) w))
    as Hctx.
  unfold pipeline_scoped at 1. rewrite Hof.
  cbn [call call_then_asset_path].
  fold inner in Hctx |- *. destruct inner as [r w1].
  cbn [fst snd] in Hf, Hfs, Hctx. subst r.
  cbn [ctx_set scoped_pipeline_dir_ctx] in Hctx.
  rewrite get_asset_path_run, Hctx.
  unfold assets_dir_in_effect. rewrite Heff, Hfs. reflexivity.
Qed.

Lemma pipeline_scoped_nested_witness :
  fst (pipeline_scoped os_path_dirname
         (call_then_asset_path os_path_dirname bob_module_file sample_func tt)
         "model.pkl" world_unscoped) =
    Ok "/kaggle/tmp/code/bob_mnist/assets/model.pkl" /\
  scoped_pipeline_dir_ctx
    (snd (pipeline_scoped os_path_dirname
            (call_then_asset_path os_path_dirname bob_module_file sample_func tt)
            "model.pkl" world_unscoped)) = None.
Proof.
  exact (pipeline_scoped_nested os_path_dirname bob_module_file sample_func tt
           (PPath "/kaggle/tmp/code/bob_mnist") 42 "model.pkl" world_unscoped
           eq_refl eq_refl eq_refl).
Defined.

End DjMore.

(** ** Notebook output files *)

Section FilesFacts.

Import Dj DjFiles FilesSpec.

Variable client_get : string -> Failure + PyVal.
Variable urlretrieve : PyVal -> string -> option Failure.

Lemma after_fetching_nil (out_dir : string) (s : Session) :
  after_fetching out_dir [] s = s.
Proof.
  destruct s as [[ctx fs dirs] rq rt so sp im].
  unfold after_fetching, dirs_made, fetched, printed. cbn.
  rewrite !app_nil_r. reflexivity.
Qed.

Lemma dirs_made_cons (out_dir : string) (sp : string * PyVal)
    (specs : list (string * PyVal)) :
  dirs_made out_dir (sp :: specs) =
    ((if is_empty (os_path_dirname (target out_dir sp.1)) then []
      else [os_path_dirname (target out_dir sp.1)]) ++
     dirs_made out_dir specs)%list.
Proof.
  unfold dirs_made. cbn [map]. rewrite filter_cons.
  destruct (is_empty (os_path_dirname (target out_dir sp.1))).
  - rewrite decide_False by discriminate. reflexivity.
  - rewrite decide_True by reflexivity. reflexivity.
Qed.

(** The directory of a target is made, or is empty and left alone. *)
Lemma makedirs_target (d : string) (s : Session) :
  Forall (fun d' => makedirs_error (world s) d' = None)
         (if is_empty d then [] else [d]) ->
  (if is_empty d then (None, s) else makedirs d s) =
    (None,
     with_world
       {| scoped_pipeline_dir_ctx := scoped_pipeline_dir_ctx (world s);
          makedirs_error := makedirs_error (world s);
          made_dirs :=
            made_dirs (world s) ++ (if is_empty d then [] else [d]) |} s).
Proof.
  intros Hd. destruct s as [[ctx fs dirs] rq rt so sp im].
  destruct (is_empty d).
  - cbn. rewrite app_nil_r. reflexivity.
  - apply Forall_cons in Hd as [Hd _]. cbn in Hd.
    unfold makedirs, os_makedirs. cbn. rewrite Hd. reflexivity.
Qed.

(** Fetching one file and then the others is fetching them all. *)
Lemma after_fetching_cons (out_dir : string) (sp : string * PyVal)
    (specs : list (string * PyVal)) (s : Session) :
  after_fetching out_dir specs
    (print ("downloaded " +:+ target out_dir sp.1)
       (log_retrieved sp.2 (target out_dir sp.1)
          (with_world
             {| scoped_pipeline_dir_ctx := scoped_pipeline_dir_ctx (world s);
                makedirs_error := makedirs_error (world s);
                made_dirs :=
                  made_dirs (world s) ++
                  (if is_empty (os_path_dirname (target out_dir sp.1)) then []
                   else [os_path_dirname (target out_dir sp.1)]) |} s))) =
  after_fetching out_dir (sp :: specs) s.
Proof.
  destruct s as [[ctx fs dirs] rq rt so sy im].
  unfold after_fetching. rewrite dirs_made_cons.
  unfold fetched, printed. cbn.
  rewrite <- !app_assoc. reflexivity.
Qed.

(** When every entry of the listing names a file and a URL, every
    directory asked for can be made and every transfer succeeds, the
    files are fetched in the order of the listing, each from its URL to
    the join of [out_dir] and its name; the directory of each target is
    made first unless it is empty, and one line is printed per file. *)
Lemma download_each_all (out_dir : string) (files : list PyVal)
    (specs : list (string * PyVal)) (s : Session) :
  Forall2 names_file files specs ->
  dirs_can_be_made s out_dir specs ->
  Forall (fun sp => urlretrieve sp.2 (target out_dir sp.1) = None) specs ->
  download_each urlretrieve out_dir files s =
    (None, after_fetching out_dir specs s).
Proof.
  intros Hnames. revert s.
  induction Hnames as [| f sp files specs [Hname Hurl] _ IH];
    intros s Hdirs Hok.
  - cbn. rewrite after_fetching_nil. reflexivity.
  - apply Forall_cons in Hok as [Hsp Hok]. unfold dirs_can_be_made in Hdirs.
    rewrite dirs_made_cons in Hdirs. apply Forall_app in Hdirs as [Hd Hdirs].
    cbn [download_each]. rewrite Hname. fold (target out_dir sp.1).
    rewrite (makedirs_target _ s Hd), Hurl, Hsp.
    rewrite IH; [|exact Hdirs|exact Hok].
    rewrite after_fetching_cons. reflexivity.
Qed.

(** The loop over a listing in two parts. *)
Lemma download_each_app (out_dir : string) (files1 files2 : list PyVal)
    (s : Session) :
  download_each urlretrieve out_dir (files1 ++ files2) s =
    match download_each urlretrieve out_dir files1 s with
    | (None, s1) => download_each urlretrieve out_dir files2 s1
    | failed => failed
    end.
Proof.
  revert s. induction files1 as [| f files1 IH]; intros s; [reflexivity |].
  cbn [app download_each].
  destruct (getitem f "fileName") as [e | [| | | | name | |]]; try reflexivity.
  destruct (if is_empty (os_path_dirname (os_path_join out_dir [name]))
            then (None, s)
            else makedirs (os_path_dirname (os_path_join out_dir [name])) s)
    as [[e |] s1]; [reflexivity |].
  destruct (getitem f "url") as [e | u]; [reflexivity |].
  destruct (urlretrieve u (os_path_join out_dir [name])); [reflexivity |].
  apply IH.
Qed.

Lemma dirs_made_app (out_dir : string) (specs1 specs2 : list (string * PyVal)) :
  dirs_made out_dir (specs1 ++ specs2) =
    (dirs_made out_dir specs1 ++ dirs_made out_dir specs2)%list.
Proof. unfold dirs_made. rewrite map_app, filter_app. reflexivity. Qed.

Lemma dirs_can_be_made_app (s : Session) (out_dir : string)
    (specs1 specs2 : list (string * PyVal)) :
  dirs_can_be_made s out_dir (specs1 ++ specs2) ->
  dirs_can_be_made s out_dir specs1 /\
  dirs_can_be_made (after_fetching out_dir specs1 s) out_dir specs2.
Proof.
  unfold dirs_can_be_made, dirs_made. rewrite map_app, filter_app.
  intros H. apply Forall_app in H. exact H.
Qed.

(** X16: a transfer that fails ends the call with that failure and
    nothing is undone: the files listed before it stay fetched and
    announced, the directory of the failed target has been made, and no
    later file is attempted.  (The directories asked for up to that file
    are taken to be ones [os.makedirs] can make.) *)
Theorem download_each_stops_at_failure (out_dir : string)
    (files1 : list PyVal) (specs1 : list (string * PyVal))
    (f : PyVal) (sp : string * PyVal) (rest : list PyVal)
    (e : Failure) (s : Session) :
  Forall2 names_file files1 specs1 ->
  Forall (fun sp => urlretrieve sp.2 (target out_dir sp.1) = None) specs1 ->
  names_file f sp ->
  dirs_can_be_made s out_dir (specs1 ++ [sp]) ->
  urlretrieve sp.2 (target out_dir sp.1) = Some e ->
  exists s',
    download_each urlretrieve out_dir (files1 ++ f :: rest) s = (Some e, s') /\
    retrieved s' = (retrieved s ++ fetched out_dir specs1)%list /\
    stdout s' = (stdout s ++ printed out_dir specs1)%list /\
    made_dirs (world s') =
      (made_dirs (world s) ++ dirs_made out_dir (specs1 ++ [sp]))%list.
Proof.
  intros Hnames Hok [Hname Hurl] Hdirs Hfail.
  apply dirs_can_be_made_app in Hdirs as [Hdirs1 Hdirs2].
  rewrite download_each_app,
    (download_each_all _ _ _ _ Hnames Hdirs1 Hok).
  cbn [download_each]. rewrite Hname. fold (target out_dir sp.1).
  unfold dirs_can_be_made in Hdirs2. rewrite dirs_made_cons in Hdirs2.
  apply Forall_app in Hdirs2 as [Hd _].
  rewrite (makedirs_target _ _ Hd), Hurl, Hfail.
  eexists. split; [reflexivity |].
  rewrite dirs_made_app, (dirs_made_cons out_dir sp []). cbn.
  rewrite app_nil_r, <- app_assoc. repeat split; reflexivity.
Qed.

(** X28: an [os.makedirs] that fails on the directory of a target ends
    the call with that [OSError]: the files listed before it stay
    fetched and announced, and neither that file nor a later one is
    fetched. *)
Theorem download_each_stops_at_makedirs_failure (out_dir : string)
    (files1 : list PyVal) (specs1 : list (string * PyVal))
    (f : PyVal) (name : string) (rest : list PyVal)
    (err : string) (s : Session) :
  Forall2 names_file files1 specs1 ->
  Forall (fun sp => urlretrieve sp.2 (target out_dir sp.1) = None) specs1 ->
  dirs_can_be_made s out_dir specs1 ->
  getitem f "fileName" = inr (VStr name) ->
  is_empty (os_path_dirname (target out_dir name)) = false ->
  makedirs_error (world s) (os_path_dirname (target out_dir name)) = Some err ->
  download_each urlretrieve out_dir (files1 ++ f :: rest) s =
    (Some (OSError err), after_fetching out_dir specs1 s).
Proof.
  intros Hnames Hok Hdirs Hname Hdir Herr.
  rewrite download_each_app, (download_each_all _ _ _ _ Hnames Hdirs Hok).
  cbn [download_each]. rewrite Hname. fold (target out_dir name).
  rewrite Hdir. unfold makedirs, os_makedirs.
  cbn [after_fetching world makedirs_error]. rewrite Herr.
  destruct s as [[ctx fs dirs] rq rt so sp im]. reflexivity.
Qed.

(** The whole listing is fetched when its entries are well formed, the
    directories can be made and the transfers succeed. *)
Lemma download_listing_fetched
    (user_name kernel_slug out_dir : string) (response : PyVal)
    (files : list PyVal) (specs : list (string * PyVal)) (s : Session) :
  client_get (output_request user_name kernel_slug) = inr response ->
  getitem response "files" = inr (VList files) ->
  Forall2 names_file files specs ->
  dirs_can_be_made s out_dir specs ->
  Forall (fun sp => urlretrieve sp.2 (target out_dir sp.1) = None) specs ->
  download_notebook_output_files client_get urlretrieve
    user_name kernel_slug out_dir s =
    (None, after_fetching out_dir specs
             (log_request (output_request user_name kernel_slug) s)).
Proof.
  intros Hget Hfiles Hnames Hdirs Hok. unfold download_notebook_output_files.
  rewrite Hget, Hfiles. cbn [iterate].
  apply download_each_all; assumption.
Qed.

(** X15: with a listing whose ["files"] entry is a list of well-formed
    entries, a file system on which the directories of the targets can be
    made and transfers that all succeed, [download_notebook_output_files]
    asks the client for the output of that notebook, 500 entries a page,
    and fetches every file listed, in order, below [out_dir]. *)
Theorem download_notebook_output_files_all
    (user_name kernel_slug out_dir : string) (response : PyVal)
    (files : list PyVal) (specs : list (string * PyVal)) (s : Session) :
  client_get (output_request user_name kernel_slug) = inr response ->
  getitem response "files" = inr (VList files) ->
  Forall2 names_file files specs ->
  dirs_can_be_made s out_dir specs ->
  Forall (fun sp => urlretrieve sp.2 (target out_dir sp.1) = None) specs ->
  download_notebook_output_files client_get urlretrieve
    user_name kernel_slug out_dir s =
    (None, after_fetching out_dir specs
             (log_request (output_request user_name kernel_slug) s)).
Proof. apply download_listing_fetched. Qed.

(** X17: when the listing cannot be had, because the client fails, the
    body has no ["files"] entry or is not a [dict], or the entry cannot
    be iterated, the call fails with that failure after the one request:
    no directory is created, nothing is fetched and nothing printed. *)
Theorem download_notebook_output_files_no_listing
    (user_name kernel_slug out_dir : string) (e : Failure) (s : Session) :
  client_get (output_request user_name kernel_slug) = inl e \/
  (exists response,
     client_get (output_request user_name kernel_slug) = inr response /\
     (getitem response "files" = inl e \/
      exists files, getitem response "files" = inr files /\
                    iterate files = inl e)) ->
  download_notebook_output_files client_get urlretrieve
    user_name kernel_slug out_dir s =
    (Some e, log_request (output_request user_name kernel_slug) s).
Proof.
  unfold download_notebook_output_files.
  intros [Hget | (response & Hget & [Hfiles | (files & Hfiles & Hiter)])];
    rewrite Hget; [reflexivity | |]; rewrite Hfiles; [reflexivity |].
  rewrite Hiter. reflexivity.
Qed.

(** What [os.makedirs] in a session leaves alone. *)
Lemma makedirs_frame (d : string) (s : Session) :
  let s1 := snd (makedirs d s) in
  scoped_pipeline_dir_ctx (world s1) = scoped_pipeline_dir_ctx (world s) /\
  sys_path s1 = sys_path s /\ imported s1 = imported s /\
  requests s1 = requests s /\ retrieved s1 = retrieved s /\
  stdout s1 = stdout s /\
  made_dirs (world s) `prefix_of` made_dirs (world s1).
Proof.
  unfold makedirs, os_makedirs.
  destruct (makedirs_error (world s) d); cbn; repeat split; try reflexivity.
  apply prefix_app_r. reflexivity.
Qed.

(** What the loop leaves alone, and what it only adds to. *)
Lemma download_each_frame (out_dir : string) (files : list PyVal) (s : Session) :
  let s' := snd (download_each urlretrieve out_dir files s) in
  scoped_pipeline_dir_ctx (world s') = scoped_pipeline_dir_ctx (world s) /\
  sys_path s' = sys_path s /\
  imported s' = imported s /\
  requests s' = requests s /\
  retrieved s `prefix_of` retrieved s' /\
  stdout s `prefix_of` stdout s' /\
  made_dirs (world s) `prefix_of` made_dirs (world s').
Proof.
  revert s. induction files as [| f files IH]; intros s; cbn [download_each].
  - cbn. repeat split; reflexivity.
  - destruct (getitem f "fileName") as [e | [| | | | name | |]];
      try (cbn; repeat split; reflexivity).
    assert (let s1 := snd (if is_empty (os_path_dirname (os_path_join out_dir [name]))
                           then (None, s)
                           else makedirs (os_path_dirname (os_path_join out_dir [name])) s) in
            scoped_pipeline_dir_ctx (world s1) =
              scoped_pipeline_dir_ctx (world s) /\
            sys_path s1 = sys_path s /\ imported s1 = imported s /\
            requests s1 = requests s /\ retrieved s1 = retrieved s /\
            stdout s1 = stdout s /\
            made_dirs (world s) `prefix_of` made_dirs (world s1))
      as Hs1.
    { destruct (is_empty (os_path_dirname (os_path_join out_dir [name])));
        [cbn; repeat split; reflexivity | apply makedirs_frame]. }
    destruct (if is_empty (os_path_dirname (os_path_join out_dir [name]))
              then (None, s)
              else makedirs (os_path_dirname (os_path_join out_dir [name])) s)
      as [o s1].
    cbn [snd] in Hs1. destruct Hs1 as (H1 & H2 & H3 & H4 & H5 & H6 & H7).
    destruct o as [e |].
    { cbn. rewrite H1, H2, H3, H4, H5, H6. repeat split; try reflexivity.
      exact H7. }
    destruct (getitem f "url") as [e | u].
    { cbn. rewrite H1, H2, H3, H4, H5, H6. repeat split; try reflexivity.
      exact H7. }
    destruct (urlretrieve u (os_path_join out_dir [name])).
    { cbn. rewrite H1, H2, H3, H4, H5, H6. repeat split; try reflexivity.
      exact H7. }
    destruct (IH (print ("downloaded " +:+ os_path_join out_dir [name])
                    (log_retrieved u (os_path_join out_dir [name]) s1)))
      as (I1 & I2 & I3 & I4 & I5 & I6 & I7).
    cbv zeta. rewrite I1, I2, I3, I4. cbn [print log_retrieved world sys_path
      imported requests]. rewrite H1, H2, H3, H4. repeat split.
    + etrans; [|exact I5]. cbn [print log_retrieved retrieved].
      rewrite H5. apply prefix_app_r. reflexivity.
    + etrans; [|exact I6]. cbn [print log_retrieved stdout].
      rewrite H6. apply prefix_app_r. reflexivity.
    + etrans; [exact H7 | exact I7].
Qed.

(** The same for the whole function, which makes one request. *)
Lemma download_frame
    (user_name kernel_slug out_dir : string) (s : Session) :
  let s' := snd (download_notebook_output_files client_get urlretrieve
                   user_name kernel_slug out_dir s) in
  requests s' = (requests s ++ [output_request user_name kernel_slug])%list /\
  scoped_pipeline_dir_ctx (world s') = scoped_pipeline_dir_ctx (world s) /\
  sys_path s' = sys_path s /\
  imported s' = imported s /\
  retrieved s `prefix_of` retrieved s' /\
  stdout s `prefix_of` stdout s' /\
  made_dirs (world s) `prefix_of` made_dirs (world s').
Proof.
  unfold download_notebook_output_files.
  destruct (client_get (output_request user_name kernel_slug)) as [e | response];
    [cbn; repeat split; reflexivity |].
  destruct (getitem response "files") as [e | files];
    [cbn; repeat split; reflexivity |].
  destruct (iterate files) as [e | fs]; [cbn; repeat split; reflexivity |].
  destruct (download_each_frame out_dir fs
              (log_request (output_request user_name kernel_slug) s))
    as (H1 & H2 & H3 & H4 & H5 & H6 & H7).
  cbn zeta. rewrite H4. repeat split; assumption.
Qed.

(** X18: whatever the client and the transfers do,
    [download_notebook_output_files] makes exactly one request, leaves
    the scoped pipeline directory, [sys.path] and the imported modules
    alone, and only adds to the directories created, the files fetched
    and the output printed. *)
Theorem download_notebook_output_files_frame
    (user_name kernel_slug out_dir : string) (s : Session) :
  let s' := snd (download_notebook_output_files client_get urlretrieve
                   user_name kernel_slug out_dir s) in
  requests s' = (requests s ++ [output_request user_name kernel_slug])%list /\
  scoped_pipeline_dir_ctx (world s') = scoped_pipeline_dir_ctx (world s) /\
  sys_path s' = sys_path s /\
  imported s' = imported s /\
  retrieved s `prefix_of` retrieved s' /\
  stdout s `prefix_of` stdout s' /\
  made_dirs (world s) `prefix_of` made_dirs (world s').
Proof. apply download_frame. Qed.

Lemma string_app_assoc (s t u : string) :
  (s +:+ t) +:+ u = s +:+ (t +:+ u).
Proof.
  induction s as [| c s IH]; [reflexivity |].
  rewrite !append_cons, IH. reflexivity.
Qed.

Lemma target_empty_out_dir (name : string) : target EmptyString name = name.
Proof.
  unfold target, os_path_join, join_step. cbn.
  destruct (starts_with_sep name); reflexivity.
Qed.

Lemma target_absolute (out_dir name : string) :
  starts_with_sep name = true -> target out_dir name = name.
Proof.
  intros H. unfold target, os_path_join, join_step. cbn. rewrite H. reflexivity.
Qed.

Lemma contains_sep_rev_app (s acc : string) :
  contains_sep (String.rev_app s acc) = contains_sep s || contains_sep acc.
Proof.
  revert acc. induction s as [| c s IH]; intros acc; [reflexivity |].
  cbn. rewrite IH. cbn. destruct (Ascii.eqb c sep), (contains_sep s);
    reflexivity.
Qed.

Lemma rev_head_no_sep (r : string) :
  contains_sep r = false -> rev_head r = EmptyString.
Proof.
  induction r as [| c r IH]; [reflexivity |]. cbn.
  destruct (Ascii.eqb c sep); [discriminate | exact IH].
Qed.

(** A name with no separator has the empty directory name. *)
Lemma os_path_dirname_no_sep (name : string) :
  contains_sep name = false -> os_path_dirname name = EmptyString.
Proof.
  intros H. unfold os_path_dirname.
  rewrite rev_head_no_sep; [reflexivity |].
  unfold String.rev. rewrite contains_sep_rev_app, H. reflexivity.
Qed.

(** X19: with the default [out_dir], the empty string, files whose names
    hold no separator are written under their bare names, relative to the
    working directory, and no directory is created. *)
Theorem download_flat_names_default_dir
    (user_name kernel_slug : string) (response : PyVal)
    (files : list PyVal) (specs : list (string * PyVal)) (s : Session) :
  client_get (output_request user_name kernel_slug) = inr response ->
  getitem response "files" = inr (VList files) ->
  Forall2 names_file files specs ->
  Forall (fun sp => contains_sep sp.1 = false) specs ->
  Forall (fun sp => urlretrieve sp.2 sp.1 = None) specs ->
  let r := download_notebook_output_files client_get urlretrieve
             user_name kernel_slug EmptyString s in
  fst r = None /\
  made_dirs (world (snd r)) = made_dirs (world s) /\
  retrieved (snd r) = (retrieved s ++ map (fun sp => (sp.2, sp.1)) specs)%list.
Proof.
  intros Hget Hfiles Hnames Hflat Hok r. unfold r.
  assert (dirs_made EmptyString specs = []) as Hnone.
  { unfold dirs_made. clear Hnames Hok r.
    induction Hflat as [| sp specs Hsp _ IH]; [reflexivity |].
    cbn [map]. rewrite filter_cons, target_empty_out_dir,
      (os_path_dirname_no_sep _ Hsp).
    rewrite decide_False by discriminate. exact IH. }
  rewrite (download_listing_fetched user_name kernel_slug EmptyString
             response files specs s Hget Hfiles Hnames).
  - cbn [fst snd after_fetching world made_dirs retrieved log_request].
    split; [reflexivity |]. split.
    + rewrite Hnone. apply app_nil_r.
    + f_equal. unfold fetched. apply map_ext. intros sp.
      rewrite target_empty_out_dir. reflexivity.
  - unfold dirs_can_be_made. rewrite Hnone. constructor.
  - eapply Forall_impl; [exact Hok |]. intros sp Hsp.
    rewrite target_empty_out_dir. exact Hsp.
Qed.

(** X20: when the whole listing can be fetched (the directories of the
    targets can be made and the transfers succeed), a file whose listed
    name is an absolute path is written at that path, outside
    [out_dir]. *)
Theorem download_absolute_name_escapes
    (user_name kernel_slug out_dir : string) (response : PyVal)
    (files : list PyVal) (specs : list (string * PyVal))
    (sp : string * PyVal) (s : Session) :
  client_get (output_request user_name kernel_slug) = inr response ->
  getitem response "files" = inr (VList files) ->
  Forall2 names_file files specs ->
  dirs_can_be_made s out_dir specs ->
  Forall (fun sp => urlretrieve sp.2 (target out_dir sp.1) = None) specs ->
  sp ∈ specs ->
  starts_with_sep sp.1 = true ->
  (sp.2, sp.1) ∈
    retrieved (snd (download_notebook_output_files client_get urlretrieve
                      user_name kernel_slug out_dir s)).
Proof.
  intros Hget Hfiles Hnames Hdirs Hok Hin Habs.
  rewrite (download_listing_fetched user_name kernel_slug out_dir
             response files specs s Hget Hfiles Hnames Hdirs Hok).
  cbn [snd after_fetching retrieved]. apply elem_of_app. right.
  unfold fetched. apply list_elem_of_fmap. exists sp. split; [|exact Hin].
  rewrite (target_absolute _ _ Habs). reflexivity.
Qed.

Variable PyModule : Type.
Variable import_module : string -> list string -> Failure + PyModule.

(** X21: when the download fails, [import_pipeline_module] fails with
    the same failure: [sys.path] is left as it was and no import is
    attempted. *)
Theorem import_pipeline_module_failed_download
    (user_name kernel_slug : string) (e : Failure) (s s1 : Session) :
  download_notebook_output_files client_get urlretrieve user_name kernel_slug
    ("/kaggle/tmp/code/" +:+ pipeline_package user_name kernel_slug) s =
    (Some e, s1) ->
  import_pipeline_module client_get urlretrieve PyModule import_module
    user_name kernel_slug s = (inl e, s1) /\
  sys_path s1 = sys_path s /\
  imported s1 = imported s.
Proof.
  intros Hd. unfold import_pipeline_module. rewrite Hd.
  split; [reflexivity |].
  pose proof (download_frame user_name kernel_slug
                ("/kaggle/tmp/code/" +:+ pipeline_package user_name kernel_slug) s)
    as (_ & _ & H2 & H3 & _).
  rewrite Hd in H2, H3. split; assumption.
Qed.

(** X22: after a successful download, [import_pipeline_module] appends
    ["/kaggle/tmp/code"] to [sys.path] and imports the module
    [<user_name>_<kernel_slug>.module] under that path; its result is
    that of the import, and [sys.path] stays extended when the import
    fails. *)
Theorem import_pipeline_module_extends_sys_path
    (user_name kernel_slug : string) (s s1 : Session) :
  download_notebook_output_files client_get urlretrieve user_name kernel_slug
    ("/kaggle/tmp/code/" +:+ pipeline_package user_name kernel_slug) s =
    (None, s1) ->
  let r := import_pipeline_module client_get urlretrieve PyModule import_module
             user_name kernel_slug s in
  let name := user_name +:+ "_" +:+ kernel_slug +:+ ".module" in
  fst r = import_module name (sys_path s ++ ["/kaggle/tmp/code"]) /\
  sys_path (snd r) = (sys_path s ++ ["/kaggle/tmp/code"])%list /\
  imported (snd r) =
    (imported s ++ if fst r is inr _ then [name] else [])%list.
Proof.
  intros Hd.
  pose proof (download_frame user_name kernel_slug
                ("/kaggle/tmp/code/" +:+ pipeline_package user_name kernel_slug) s)
    as (_ & _ & H2 & H3 & _).
  rewrite Hd in H2, H3. cbn [snd] in H2, H3.
  unfold import_pipeline_module. rewrite Hd.
  cbn [sys_path_append sys_path]. rewrite H2.
  assert (pipeline_package user_name kernel_slug +:+ ".module" =
          user_name +:+ "_" +:+ kernel_slug +:+ ".module") as ->.
  { unfold pipeline_package. rewrite !string_app_assoc. reflexivity. }
  destruct (import_module _ _) as [e | m]; cbn.
  - rewrite H2, H3, app_nil_r. repeat split; reflexivity.
  - rewrite H2, H3. repeat split; reflexivity.
Qed.

End FilesFacts.

Section FilesMore.

Import Dj DjFiles FilesSpec FilesSamples.

Variable client_get : string -> Failure + PyVal.
Variable urlretrieve : PyVal -> string -> option Failure.
Variable PyModule : Type.
Variable import_module : string -> list string -> Failure + PyModule.

Lemma import_pipeline_module_sys_path
    (user_name kernel_slug : string) (s : Session) :
  fst (download_notebook_output_files client_get urlretrieve
         user_name kernel_slug
         ("/kaggle/tmp/code/" +:+ pipeline_package user_name kernel_slug) s) =
    None ->
  sys_path (snd (import_pipeline_module client_get urlretrieve PyModule
                   import_module user_name kernel_slug s)) =
    (sys_path s ++ ["/kaggle/tmp/code"])%list.
Proof.
  intros Hd.
  pose proof (download_frame client_get urlretrieve user_name kernel_slug
                ("/kaggle/tmp/code/" +:+ pipeline_package user_name kernel_slug) s)
    as (_ & _ & H2 & _).
  unfold import_pipeline_module.
  destruct (download_notebook_output_files client_get urlretrieve
              user_name kernel_slug _ s) as [[e |] s1]; [discriminate Hd |].
  cbn [snd] in H2. cbn [sys_path_append sys_path].
  destruct (import_module _ _); cbn; rewrite H2; reflexivity.
Qed.

(** X23: [sys.path] is not checked before it is extended: two calls whose
    downloads succeed leave ["/kaggle/tmp/code"] on it twice. *)
Theorem import_pipeline_module_twice
    (user1 kernel1 user2 kernel2 : string) (s : Session) :
  let s1 := snd (import_pipeline_module client_get urlretrieve PyModule
                   import_module user1 kernel1 s) in
  let s2 := snd (import_pipeline_module client_get urlretrieve PyModule
                   import_module user2 kernel2 s1) in
  fst (download_notebook_output_files client_get urlretrieve user1 kernel1
         ("/kaggle/tmp/code/" +:+ pipeline_package user1 kernel1) s) = None ->
  fst (download_notebook_output_files client_get urlretrieve user2 kernel2
         ("/kaggle/tmp/code/" +:+ pipeline_package user2 kernel2) s1) = None ->
  sys_path s2 =
    (sys_path s ++ ["/kaggle/tmp/code"; "/kaggle/tmp/code"])%list.
Proof.
  intros s1 s2 H1 H2. unfold s2.
  rewrite (import_pipeline_module_sys_path user2 kernel2 s1 H2). unfold s1.
  rewrite (import_pipeline_module_sys_path user1 kernel1 s H1).
  rewrite <- app_assoc. reflexivity.
Qed.

End FilesMore.

Section FilesWitnesses.

Import Dj DjFiles FilesSpec FilesSamples.

Lemma iris_names : Forall2 names_file
  [entry "module/__init__.py" "https://storage/1";
   entry "weights.bin" "https://storage/2"] iris_specs.
Proof. repeat constructor. Qed.

Lemma download_each_stops_at_failure_witness :
  exists s',
    download_each urlretrieve_second_fails alice_iris_dir
      ([entry "module/__init__.py" "https://storage/1"] ++
       entry "weights.bin" "https://storage/2" :: []) fresh_session =
      (Some (External "URLError"), s') /\
    retrieved s' =
      (retrieved fresh_session ++
       fetched alice_iris_dir
         [("module/__init__.py", VStr "https://storage/1")])%list /\
    stdout s' =
      (stdout fresh_session ++
       printed alice_iris_dir
         [("module/__init__.py", VStr "https://storage/1")])%list /\
    made_dirs (world s') =
      (made_dirs (world fresh_session) ++
       dirs_made alice_iris_dir
         ([("module/__init__.py", VStr "https://storage/1")] ++
          [("weights.bin", VStr "https://storage/2")]))%list.
Proof.
  apply (download_each_stops_at_failure urlretrieve_second_fails alice_iris_dir
           [entry "module/__init__.py" "https://storage/1"]
           [("module/__init__.py", VStr "https://storage/1")]
           (entry "weights.bin" "https://storage/2")
           ("weights.bin", VStr "https://storage/2") []
           (External "URLError") fresh_session).
  - repeat constructor.
  - repeat constructor.
  - split; reflexivity.
  - repeat constructor.
  - reflexivity.
Defined.

Lemma download_each_stops_at_makedirs_failure_witness :
  download_each urlretrieve_ok alice_iris_dir
    ([] ++ entry "module/__init__.py" "https://storage/1" ::
           [entry "weights.bin" "https://storage/2"]) session_off_kaggle =
    (Some (OSError "PermissionError"),
     after_fetching alice_iris_dir [] session_off_kaggle).
Proof.
  apply (download_each_stops_at_makedirs_failure urlretrieve_ok alice_iris_dir
           [] [] (entry "module/__init__.py" "https://storage/1")
           "module/__init__.py" [entry "weights.bin" "https://storage/2"]
           "PermissionError" session_off_kaggle).
  - constructor.
  - constructor.
  - constructor.
  - reflexivity.
  - reflexivity.
  - reflexivity.
Defined.

Lemma download_notebook_output_files_all_witness :
  download_notebook_output_files sample_client_get urlretrieve_ok
    "alice" "iris" alice_iris_dir fresh_session =
    (None, after_fetching alice_iris_dir iris_specs
             (log_request (output_request "alice" "iris") fresh_session)).
Proof.
  apply (download_notebook_output_files_all sample_client_get urlretrieve_ok
           "alice" "iris" alice_iris_dir iris_listing
           [entry "module/__init__.py" "https://storage/1";
            entry "weights.bin" "https://storage/2"] iris_specs fresh_session).
  - reflexivity.
  - reflexivity.
  - exact iris_names.
  - repeat constructor.
  - repeat constructor.
Defined.

Lemma download_notebook_output_files_no_listing_witness :
  download_notebook_output_files sample_client_get urlretrieve_ok
    "bob" "mnist" EmptyString fresh_session =
    (Some (External "404 Client Error"),
     log_request (output_request "bob" "mnist") fresh_session).
Proof.
  apply (download_notebook_output_files_no_listing sample_client_get
           urlretrieve_ok "bob" "mnist" EmptyString
           (External "404 Client Error") fresh_session).
  left. reflexivity.
Defined.

Lemma download_flat_names_default_dir_witness :
  let r := download_notebook_output_files flat_client_get urlretrieve_ok
             "alice" "iris" EmptyString fresh_session in
  fst r = None /\
  made_dirs (world (snd r)) = made_dirs (world fresh_session) /\
  retrieved (snd r) =
    (retrieved fresh_session ++ map (fun sp => (sp.2, sp.1)) flat_specs)%list.
Proof.
  apply (download_flat_names_default_dir flat_client_get urlretrieve_ok
           "alice" "iris"
           (VDict [("files", VList [entry "weights.bin" "https://storage/2"])])
           [entry "weights.bin" "https://storage/2"] flat_specs fresh_session).
  - reflexivity.
  - reflexivity.
  - repeat constructor.
  - repeat constructor.
  - repeat constructor.
Defined.

Lemma download_absolute_name_escapes_witness :
  (VStr "https://storage/3", "/root/.bashrc") ∈
    retrieved (snd (download_notebook_output_files escaping_client_get
                      urlretrieve_ok "alice" "iris" alice_iris_dir
                      fresh_session)).
Proof.
  apply (download_absolute_name_escapes escaping_client_get urlretrieve_ok
           "alice" "iris" alice_iris_dir
           (VDict [("files", VList [entry "/root/.bashrc" "https://storage/3"])])
           [entry "/root/.bashrc" "https://storage/3"] escaping_specs
           ("/root/.bashrc", VStr "https://storage/3") fresh_session).
  - reflexivity.
  - reflexivity.
  - repeat constructor.
  - repeat constructor.
  - repeat constructor.
  - apply list_elem_of_here.
  - reflexivity.
Defined.

Lemma import_pipeline_module_failed_download_witness :
  import_pipeline_module sample_client_get urlretrieve_ok string
    sample_import_module "bob" "mnist" fresh_session =
    (inl (External "404 Client Error"),
     log_request (output_request "bob" "mnist") fresh_session) /\
  sys_path (log_request (output_request "bob" "mnist") fresh_session) =
    sys_path fresh_session /\
  imported (log_request (output_request "bob" "mnist") fresh_session) =
    imported fresh_session.
Proof.
  apply (import_pipeline_module_failed_download sample_client_get
           urlretrieve_ok string sample_import_module "bob" "mnist"
           (External "404 Client Error") fresh_session
           (log_request (output_request "bob" "mnist") fresh_session)).
  reflexivity.
Defined.

Lemma import_pipeline_module_extends_sys_path_witness :
  let r := import_pipeline_module sample_client_get urlretrieve_ok string
             sample_import_module "alice" "iris" fresh_session in
  fst r = sample_import_module "alice_iris.module"
            (sys_path fresh_session ++ ["/kaggle/tmp/code"]) /\
  sys_path (snd r) = (sys_path fresh_session ++ ["/kaggle/tmp/code"])%list /\
  imported (snd r) =
    (imported fresh_session ++
     if fst r is inr _ then ["alice_iris.module"] else [])%list.
Proof.
  apply (import_pipeline_module_extends_sys_path sample_client_get
           urlretrieve_ok string sample_import_module "alice" "iris"
           fresh_session
           (snd (download_notebook_output_files sample_client_get
                   urlretrieve_ok "alice" "iris"
                   ("/kaggle/tmp/code/" +:+ pipeline_package "alice" "iris")
                   fresh_session))).
  reflexivity.
Defined.

Lemma import_pipeline_module_twice_witness :
  sys_path
    (snd (import_pipeline_module sample_client_get urlretrieve_ok string
            sample_import_module "alice" "iris"
            (snd (import_pipeline_module sample_client_get urlretrieve_ok
                    string sample_import_module "alice" "iris"
                    fresh_session)))) =
    ["/usr/lib/python3"; "/kaggle/tmp/code"; "/kaggle/tmp/code"].
Proof.
  apply (import_pipeline_module_twice sample_client_get urlretrieve_ok string
           sample_import_module "alice" "iris" "alice" "iris" fresh_session);
    reflexivity.
Defined.

End FilesWitnesses.

(** ** Logging in *)

Section AuthFacts.

Import Auth.

Variable Config : Type.
Variable set_kaggle_credentials :
  string -> string -> Config -> option Exceptions.Exc * Config.

(** X24: when the input ends before both prompts are answered, [login]
    fails with [EOFError], the configuration is left as it was and the
    success message is not printed. *)
Theorem login_end_of_input (c : Console) (cfg : Config) :
  (length (stdin c) < 2)%nat ->
  exists c',
    login Config set_kaggle_credentials c cfg = (Some EOFError, c', cfg) /\
    stdin c' = [] /\
    logged_in_message +:+ Exceptions.nl ∉ drop (length (stdout c)) (stdout c').
Proof.
  intros Hlen. unfold login, input.
  destruct (stdin c) as [| username [| api_key rest]]; cbn in Hlen; [| |lia].
  - eexists. split; [reflexivity |]. split; [reflexivity |].
    cbn. rewrite drop_app_length. intros H.
    apply elem_of_cons in H as [H | H]; [discriminate H |].
    apply elem_of_nil in H. exact H.
  - eexists. split; [reflexivity |]. split; [reflexivity |].
    cbn. rewrite <- app_assoc, drop_app_length. intros H.
    apply elem_of_cons in H as [H | H]; [discriminate H |].
    apply elem_of_cons in H as [H | H]; [discriminate H |].
    apply elem_of_nil in H. exact H.
Qed.

(** X25: the last thing [login] writes is the success message exactly
    when it returns normally, that is, when both prompts were answered
    and [set_kaggle_credentials] accepted the two lines. *)
Theorem login_message_iff_logged_in (c : Console) (cfg : Config) :
  let r := login Config set_kaggle_credentials c cfg in
  last (stdout r.1.2) = Some (logged_in_message +:+ Exceptions.nl) <->
  r.1.1 = None.
Proof.
  unfold login, input.
  destruct (stdin c) as [| username [| api_key rest]]; cbn.
  - rewrite last_snoc. split; discriminate.
  - rewrite last_snoc. split; discriminate.
  - destruct (set_kaggle_credentials username api_key cfg) as [[e |] cfg'];
      cbn; rewrite last_snoc; split; try discriminate; reflexivity.
Qed.

(** X26: with two lines of input, [login] hands them to
    [set_kaggle_credentials] as they were typed, the user name first,
    and reads nothing more; a failure of [set_kaggle_credentials] is the
    failure of [login]. *)
Theorem login_passes_lines (c : Console) (cfg : Config)
    (username api_key : string) (rest : list string) :
  stdin c = username :: api_key :: rest ->
  let r := login Config set_kaggle_credentials c cfg in
  r.2 = (set_kaggle_credentials username api_key cfg).2 /\
  stdin r.1.2 = rest /\
  r.1.1 = ConfigFailure <$> (set_kaggle_credentials username api_key cfg).1 /\
  take 2 (drop (length (stdout c)) (stdout r.1.2)) =
    [username_prompt; api_key_prompt].
Proof.
  intros Hin. unfold login, input. rewrite Hin. cbn.
  destruct (set_kaggle_credentials username api_key cfg) as [[e |] cfg']; cbn;
    rewrite <- ?app_assoc, drop_app_length; repeat split; reflexivity.
Qed.

End AuthFacts.

Section AuthWitnesses.

Import Auth.

Lemma login_end_of_input_witness :
  exists c',
    login unit (fun _ _ cfg => (None, cfg))
      {| stdin := ["alice"]; stdout := [] |} tt = (Some EOFError, c', tt) /\
    stdin c' = [] /\
    logged_in_message +:+ Exceptions.nl ∉ drop 0 (stdout c').
Proof.
  apply (login_end_of_input unit (fun _ _ cfg => (None, cfg))
           {| stdin := ["alice"]; stdout := [] |} tt).
  cbn. lia.
Defined.

Lemma login_passes_lines_witness :
  let r := login (option (string * string))
             (fun u k _ => (None, Some (u, k)))
             {| stdin := [" alice "; "secret"; "more"]; stdout := [] |} None in
  r.2 = Some (" alice ", "secret") /\
  stdin r.1.2 = ["more"] /\
  r.1.1 = None /\
  take 2 (drop 0 (stdout r.1.2)) = [username_prompt; api_key_prompt].
Proof.
  apply (login_passes_lines (option (string * string))
           (fun u k _ => (None, Some (u, k)))
           {| stdin := [" alice "; "secret"; "more"]; stdout := [] |} None
           " alice " "secret" ["more"]).
  reflexivity.
Defined.

End AuthWitnesses.

(** ** Importing the package *)

Section PackageFacts.

Import Package.

(** X27: importing the package never gets to the registrations.
    [kagglehub/__init__.py] asks [kagglehub.auth] for [whoami], which
    [auth.py] does not define: when the imports before it succeed the
    import of the package fails there with [ImportError], and when one of
    them fails it fails earlier; in both cases no [add_implementation]
    call has run. *)
Theorem import_package_fails
    (import_absent : string -> list string -> option Failure) :
  (exists e, fst (import_package import_absent) = Some e) /\
  snd (import_package import_absent) = [] /\
  (import_absent "kagglehub.logger" [] = None ->
   import_absent "kagglehub"
     ["colab_cache_resolver"; "http_resolver"; "kaggle_cache_resolver";
      "registry"] = None ->
   import_absent "kagglehub.config" ["set_kaggle_credentials"] = None ->
   fst (import_package import_absent) = Some (ImportError "whoami")).
Proof.
  unfold import_package, init_statements.
  cbn [app run exec String.eqb Ascii.eqb Bool.eqb].
  unfold import_auth.
  destruct (import_absent "kagglehub.logger" []) as [e1 |];
    [repeat split; eauto; discriminate |].
  destruct (import_absent "kagglehub" _) as [e2 |];
    [repeat split; eauto; discriminate |].
  destruct (import_absent "kagglehub.config" _) as [e3 |];
    [repeat split; eauto; discriminate |].
  vm_compute. repeat split; eauto.
Qed.

Lemma import_package_fails_witness :
  fst (import_package (fun _ _ => None)) = Some (ImportError "whoami").
Proof.
  destruct (import_package_fails (fun _ _ => None)) as (_ & _ & H).
  apply H; reflexivity.
Defined.

End PackageFacts.
